(** * Deferred calls and worker threads of [prefect._internal.concurrency.workers]

    A shallow embedding of [workers.py]: the [Call] dataclass with its
    [new], [run], [_run_sync], [_run_async] and [__call__] methods, the
    [Worker] class with [__init__], [start], [submit], [shutdown],
    [_entrypoint] and [_run_until_shutdown], and the module-level
    [get_global_worker].

    Python objects are records; a method takes the object and returns the
    updated object next to its outcome.  Objects that are reached through
    several references and compared by identity (the workers) live in a heap
    indexed by their identity.  The standard-library classes the module
    relies on ([concurrent.futures.Future], [contextvars.Context],
    [threading.Thread], the asyncio loop) are modelled after CPython 3.8+,
    as far as the module uses them. *)

From Stdlib Require Import ZArith Bool List Lia.
From stdpp Require Import base option list gmap strings.
Import ListNotations.

Local Open Scope string_scope.
Local Open Scope list_scope.
Local Open Scope Z_scope.

(** ** Python values, exceptions and outcomes *)

(** The plain (non-awaitable) values a wrapped function may return. *)
Inductive PyVal : Type :=
| PyNone
| PyBool (b : bool)
| PyInt (z : Z)
| PyStr (s : string).

(** Exception objects.  [RuntimeError], [AttributeError], [InvalidStateError]
    and [CancelledError] are the ones raised by the module itself and by the
    standard library underneath it; [Exception cls msg] is an exception of
    any other class that derives from [Exception].  [BaseException cls msg]
    is an exception whose class does not derive from [Exception]
    ([KeyboardInterrupt], [SystemExit], ...), and [FalsyException cls msg]
    one whose class makes its instances false (it defines [__bool__] or
    [__len__]). *)
Inductive Exc : Type :=
| RuntimeError (msg : string)
| AttributeError (msg : string)
| InvalidStateError
| CancelledError
| Exception (cls msg : string)
| BaseException (cls msg : string)
| FalsyException (cls msg : string).

(** [bool(exc)]: the truth value of an exception object. *)
Definition truthy (exc : Exc) : bool :=
  match exc with
  | FalsyException _ _ => false
  | _ => true
  end.

(** What goes wrong in a starting worker thread, if anything does:
    [Raises]: one of the set-up steps of [_run_until_shutdown] raises an
    exception of a class that derives from [Exception]; [Escapes]: it raises
    one of a class that does not; [RunFails]: [asyncio.run] raises before the
    coroutine runs at all. *)
Inductive Fault : Type :=
| Raises (cls msg : string)
| Escapes (cls msg : string)
| RunFails (cls msg : string).

(** Outcome of a Python call: it returns, it raises, or the calling thread
    blocks for ever (a wait that nothing will end). *)
Inductive Result (A : Type) : Type :=
| Ok (a : A)
| Raise (e : Exc)
| Blocked.
Arguments Ok {A} a.
Arguments Raise {A} e.
Arguments Blocked {A}.

(** [contextvars.Context]: context variables by name.  The program state that
    wrapped functions may read and write is a store of named values too. *)
Abbreviation Context := (gmap string PyVal).
Abbreviation World := (gmap string PyVal).

(** An awaitable, as [await] sees it: run in the current context of the task
    that awaits it, it yields a value or raises. *)
Definition Coro : Type := Context -> World -> Result PyVal * Context * World.

(** What a call of the wrapped function hands back when it does not raise:
    [inspect.isawaitable] tells the two apart. *)
Inductive Returned : Type :=
| Plain (v : PyVal)
| Awaitable (coro : Coro).

(** A callable applied to [*args, **kwargs]: it reads and writes the current
    context and the world. *)
Definition Callable : Type :=
  list PyVal -> gmap string PyVal -> Context -> World ->
  Result Returned * Context * World.

(** Done-callbacks of a future.  The module attaches a single kind:
    [lambda _: self.shutdown()], closed over the worker [self]. *)
Inductive Callback : Type :=
| ShutdownWorker (ident : nat).

(** ** [concurrent.futures.Future] *)

Inductive FutureState : Type :=
| PENDING
| RUNNING
| CANCELLED
| CANCELLED_AND_NOTIFIED
| FINISHED.

Record Future : Type := {
  _state : FutureState;
  _result : PyVal;
  _exception : option Exc;
  _done_callbacks : list Callback
}.

Module Future.

Definition __init__ : Future :=
  {| _state := PENDING; _result := PyNone; _exception := None;
     _done_callbacks := [] |}.

Definition set_state (st : FutureState) (self : Future) : Future :=
  {| _state := st; _result := _result self; _exception := _exception self;
     _done_callbacks := _done_callbacks self |}.

(** [self._state in {CANCELLED, CANCELLED_AND_NOTIFIED, FINISHED}] *)
Definition done (self : Future) : bool :=
  match _state self with
  | CANCELLED | CANCELLED_AND_NOTIFIED | FINISHED => true
  | PENDING | RUNNING => false
  end.

(** [cancel()]: the returned list holds the callbacks [_invoke_callbacks]
    calls. *)
Definition cancel (self : Future) : bool * Future * list Callback :=
  match _state self with
  | RUNNING | FINISHED => (false, self, [])
  | CANCELLED | CANCELLED_AND_NOTIFIED => (true, self, [])
  | PENDING => (true, set_state CANCELLED self, _done_callbacks self)
  end.

Definition set_running_or_notify_cancel (self : Future)
  : Result bool * Future :=
  match _state self with
  | CANCELLED => (Ok false, set_state CANCELLED_AND_NOTIFIED self)
  | PENDING => (Ok true, set_state RUNNING self)
  | _ => (Raise (RuntimeError "Future in unexpected state"), self)
  end.

Definition set_result (result : PyVal) (self : Future)
  : Result unit * Future * list Callback :=
  if done self then (Raise InvalidStateError, self, [])
  else (Ok tt,
        {| _state := FINISHED; _result := result;
           _exception := _exception self;
           _done_callbacks := _done_callbacks self |},
        _done_callbacks self).

Definition set_exception (exception : Exc) (self : Future)
  : Result unit * Future * list Callback :=
  if done self then (Raise InvalidStateError, self, [])
  else (Ok tt,
        {| _state := FINISHED; _result := _result self;
           _exception := Some exception;
           _done_callbacks := _done_callbacks self |},
        _done_callbacks self).

(** [result()] without a timeout.  On a finished future [__get_result]
    tests the truth value of the stored exception ([if self._exception:]):
    an exception object that is false is not raised, and the stored result
    is returned instead. *)
Definition result (self : Future) : Result PyVal :=
  match _state self with
  | CANCELLED | CANCELLED_AND_NOTIFIED => Raise CancelledError
  | FINISHED =>
      match _exception self with
      | Some exc => if truthy exc then Raise exc else Ok (_result self)
      | None => Ok (_result self)
      end
  | PENDING | RUNNING => Blocked
  end.

(** [add_done_callback(fn)]: on a future that is already done the callback
    is called at once (the second component) instead of being stored. *)
Definition add_done_callback (fn : Callback) (self : Future)
  : Future * list Callback :=
  if done self then (self, [fn])
  else ({| _state := _state self; _result := _result self;
           _exception := _exception self;
           _done_callbacks := _done_callbacks self ++ [fn] |}, []).

End Future.

(** The result channel as the specification names its states. *)
Inductive Channel : Type :=
| Pending
| Cancelled
| Fulfilled (value : PyVal)
| Failed (error : Exc).

Definition channel (f : Future) : Channel :=
  match _state f with
  | PENDING | RUNNING => Pending
  | CANCELLED | CANCELLED_AND_NOTIFIED => Cancelled
  | FINISHED =>
      match _exception f with
      | Some exc => Failed exc
      | None => Fulfilled (_result f)
      end
  end.

Definition terminal (ch : Channel) : bool :=
  match ch with Pending => false | _ => true end.

(** ** The objects of the module *)

(** [@dataclasses.dataclass class Call] *)
Record Call : Type := {
  future : Future;
  fn : Callable;
  args : list PyVal;
  kwargs : gmap string PyVal;
  context : Context
}.

(** A task created by [loop.create_task] (or by [asyncio.run]) for
    [self._run_async(coro)]: it owns a copy of the context that was current
    when it was created. *)
Record Task : Type := {
  task_context : Context;
  task_coro : Coro
}.

(** [threading.Thread], as far as the worker looks at it. *)
Record Thread : Type := {
  name : string;
  daemon : bool;
  _started : bool;
  _alive : bool
}.

(** The asyncio loop of a worker thread: the handles scheduled on it (each
    one is the bound method [call.run], recorded as the call it belongs to)
    and whether the loop has been closed. *)
Record Loop : Type := {
  _ready : list Call;
  _closed : bool
}.

(** Modelled from the spec: [prefect._internal.concurrency.primitives.Event]
    is not among the sources.  The specification describes the shutdown
    signal as a level-triggered event that, once set, stays set; the worker
    uses [Event()], [set()], [is_set()] and [wait()]. *)
Record Event : Type := {
  _is_set : bool
}.

Record Worker : Type := {
  ident : nat;
  thread : Thread;
  _ready_future : Future;
  _loop : option Loop;
  _shutdown_event : option Event;
  _run_once : bool;
  _submitted_count : Z
}.

(** The state of the interpreter as the module sees it. *)
Record State : Type := {
  (** [contextvars]: the current context of the executing thread *)
  current_context : Context;
  (** whether [get_running_loop()] finds a running loop in the executing
      thread ([prefect._internal.concurrency.event_loop] is not among the
      sources; what it returns is a parameter of the state) *)
  running_loop : bool;
  (** what wrapped functions read and write besides context variables *)
  world : World;
  (** the worker objects, by identity *)
  workers : gmap nat Worker;
  (** the module-level [GLOBAL_WORKER] *)
  GLOBAL_WORKER : option nat;
  (** workers whose [shutdown] was passed to [atexit.register] *)
  atexit_registry : list nat;
  (** the environment: what goes wrong in a starting worker thread, if
      anything does *)
  bootstrap_fault : option Fault
}.

(** Field updates. *)
Definition set_future (f : Future) (c : Call) : Call :=
  {| future := f; fn := fn c; args := args c; kwargs := kwargs c;
     context := context c |}.

Definition set_context (ctx : Context) (c : Call) : Call :=
  {| future := future c; fn := fn c; args := args c; kwargs := kwargs c;
     context := ctx |}.

Definition set_thread (th : Thread) (w : Worker) : Worker :=
  {| ident := ident w; thread := th; _ready_future := _ready_future w;
     _loop := _loop w; _shutdown_event := _shutdown_event w;
     _run_once := _run_once w; _submitted_count := _submitted_count w |}.

Definition set_ready_future (f : Future) (w : Worker) : Worker :=
  {| ident := ident w; thread := thread w; _ready_future := f;
     _loop := _loop w; _shutdown_event := _shutdown_event w;
     _run_once := _run_once w; _submitted_count := _submitted_count w |}.

Definition set_loop (l : option Loop) (w : Worker) : Worker :=
  {| ident := ident w; thread := thread w; _ready_future := _ready_future w;
     _loop := l; _shutdown_event := _shutdown_event w;
     _run_once := _run_once w; _submitted_count := _submitted_count w |}.

Definition set_shutdown_event (ev : option Event) (w : Worker) : Worker :=
  {| ident := ident w; thread := thread w; _ready_future := _ready_future w;
     _loop := _loop w; _shutdown_event := ev;
     _run_once := _run_once w; _submitted_count := _submitted_count w |}.

Definition set_submitted_count (n : Z) (w : Worker) : Worker :=
  {| ident := ident w; thread := thread w; _ready_future := _ready_future w;
     _loop := _loop w; _shutdown_event := _shutdown_event w;
     _run_once := _run_once w; _submitted_count := n |}.

Definition set_current_context (ctx : Context) (s : State) : State :=
  {| current_context := ctx; running_loop := running_loop s;
     world := world s; workers := workers s;
     GLOBAL_WORKER := GLOBAL_WORKER s; atexit_registry := atexit_registry s;
     bootstrap_fault := bootstrap_fault s |}.

Definition set_world (w : World) (s : State) : State :=
  {| current_context := current_context s; running_loop := running_loop s;
     world := w; workers := workers s;
     GLOBAL_WORKER := GLOBAL_WORKER s; atexit_registry := atexit_registry s;
     bootstrap_fault := bootstrap_fault s |}.

Definition set_workers (ws : gmap nat Worker) (s : State) : State :=
  {| current_context := current_context s; running_loop := running_loop s;
     world := world s; workers := ws;
     GLOBAL_WORKER := GLOBAL_WORKER s; atexit_registry := atexit_registry s;
     bootstrap_fault := bootstrap_fault s |}.

Definition set_GLOBAL_WORKER (g : option nat) (s : State) : State :=
  {| current_context := current_context s; running_loop := running_loop s;
     world := world s; workers := workers s;
     GLOBAL_WORKER := g; atexit_registry := atexit_registry s;
     bootstrap_fault := bootstrap_fault s |}.

Definition set_atexit_registry (l : list nat) (s : State) : State :=
  {| current_context := current_context s; running_loop := running_loop s;
     world := world s; workers := workers s;
     GLOBAL_WORKER := GLOBAL_WORKER s; atexit_registry := l;
     bootstrap_fault := bootstrap_fault s |}.

(** ** [threading.Thread], the loop and the event *)

Module Thread.

Definition __init__ (name : string) (daemon : bool) : Thread :=
  {| name := name; daemon := daemon; _started := false; _alive := false |}.

(** [start()]: a thread object starts at most once. *)
Definition start (self : Thread) : Result unit * Thread :=
  if _started self
  then (Raise (RuntimeError "threads can only be started once"), self)
  else (Ok tt, {| name := name self; daemon := daemon self;
                  _started := true; _alive := true |}).

Definition is_alive (self : Thread) : bool := _alive self.

(** The target of the thread has returned (or raised). *)
Definition finish (self : Thread) : Thread :=
  {| name := name self; daemon := daemon self;
     _started := _started self; _alive := false |}.

End Thread.

Module Loop.

(** The loop [asyncio.run] creates in a fresh thread. *)
Definition new : Loop := {| _ready := []; _closed := false |}.

Definition call_soon_threadsafe (callback : Call) (self : Loop)
  : Result unit * Loop :=
  if _closed self
  then (Raise (RuntimeError "Event loop is closed"), self)
  else (Ok tt, {| _ready := _ready self ++ [callback];
                  _closed := false |}).

Definition close (self : Loop) : Loop :=
  {| _ready := _ready self; _closed := true |}.

End Loop.

Module Event.

(** Modelled from the spec: a new event is not set. *)
Definition __init__ : Event := {| _is_set := false |}.

(** Modelled from the spec: [set()] sets the signal, and setting it again
    changes nothing. *)
Definition set (self : Event) : Event := {| _is_set := true |}.

(** Modelled from the spec: [is_set()] reads the signal. *)
Definition is_set (self : Event) : bool := _is_set self.

End Event.

(** ** [class Worker] *)

(** How far the coroutine [_run_until_shutdown] got when control comes back
    to the thread that started the worker: it waits on the shutdown event,
    it has returned, or an exception escaped from it. *)
Inductive EntryState : Type :=
| Waiting
| Completed
| Escaped (exc : Exc).

Module Worker.

Definition __init__ (name : string) (daemon : bool) (run_once : bool)
    (s : State) : nat * State :=
  let self := fresh (dom (workers s)) in
  let obj :=
    {| ident := self;
       thread := Thread.__init__ name daemon;
       _ready_future := Future.__init__;
       _loop := None;
       _shutdown_event := None;
       _run_once := run_once;
       _submitted_count := 0 |} in
  let s := set_workers (<[self := obj]> (workers s)) s in
  (self,
   if daemon then s
   else set_atexit_registry (atexit_registry s ++ [self]) s).

Definition shutdown (self : Worker) : Worker :=
  match _shutdown_event self with
  | None => self
  | Some ev => set_shutdown_event (Some (Event.set ev)) self
  end.

(** The [except Exception as exc] branch of [_run_until_shutdown]. *)
Definition _startup_failed (exc : Exc) (self : Worker)
  : EntryState * Worker :=
  match Future.set_exception exc (_ready_future self) with
  | (Ok _, f, _) => (Completed, set_ready_future f self)
  | (Raise e, _, _) => (Escaped e, self)
  | (Blocked, _, _) => (Completed, self)
  end.

(** [_run_until_shutdown] up to its [await]: the set-up steps run in the
    new thread; with a fault it is [Event()] that raises.  An exception of a
    class that derives from [Exception] is caught ([except Exception]) and
    put on the ready future; any other exception escapes from the coroutine
    and leaves the ready future as it is.  ([InvalidStateError], which
    [set_result] may raise, derives from [Exception].)  No done-callback is
    ever added to the ready future, so resolving it invokes none. *)
Definition _run_until_shutdown (self : Worker) (fault : option Fault)
  : EntryState * Worker :=
  let self := set_loop (Some Loop.new) self in
  match fault with
  | Some (Raises cls msg) => _startup_failed (Exception cls msg) self
  | Some (Escapes cls msg) => (Escaped (BaseException cls msg), self)
  | _ =>
      let self := set_shutdown_event (Some Event.__init__) self in
      match Future.set_result (PyBool true) (_ready_future self) with
      | (Ok _, f, _) => (Waiting, set_ready_future f self)
      | (Raise exc, _, _) => _startup_failed exc self
      | (Blocked, _, _) => (Waiting, self)
      end
  end.

(** [asyncio.run] closes its loop when it is over, and the thread ends when
    its target is. *)
Definition _exit (self : Worker) : Worker :=
  set_thread (Thread.finish (thread self))
    (set_loop (Loop.close <$> _loop self) self).

(** [_entrypoint] as far as the new thread gets before control is back with
    the thread that started it: [asyncio.run] either fails before the
    coroutine runs, or runs [_run_until_shutdown] up to its [await], its
    [return] or the exception that escapes from it.  In the last two cases
    the thread is still alive: it has yet to leave [asyncio.run]. *)
Definition _entrypoint (self : Worker) (fault : option Fault) : Worker :=
  match fault with
  | Some (RunFails _ _) => self
  | _ =>
      match _run_until_shutdown self fault with
      | (Waiting, self) => self
      | (Completed, self) => self
      | (Escaped _, self) => self
      end
  end.

(** [_entrypoint] is over: [asyncio.run] has returned or raised -- the
    coroutine returned after a failed set-up, an exception escaped, the loop
    was stopped under it -- the loop is closed and the thread ends. *)
Definition _entrypoint_over (self : Worker) : Worker :=
  if Thread.is_alive (thread self) then _exit self else self.

(** The rest of [_entrypoint]: [await self._shutdown_event.wait()] is over
    once the event is set, the coroutine returns and the thread ends. *)
Definition _wake (self : Worker) : Worker :=
  match _shutdown_event self with
  | Some ev =>
      if Event.is_set ev && Thread.is_alive (thread self)
      then _exit self else self
  | None => self
  end.

(** [start()]: [self.thread.start()], then [self._ready_future.result()].
    The worker it hands back is the worker at the moment the ready future
    is read; where the set-up failed, the end of the thread is a step of its
    own ([_entrypoint_over]) that may come at any time after. *)
Definition start (self : Worker) (fault : option Fault)
  : Result unit * Worker :=
  match Thread.start (thread self) with
  | (Ok _, th) =>
      let self := _entrypoint (set_thread th self) fault in
      match Future.result (_ready_future self) with
      | Ok _ => (Ok tt, self)
      | Raise exc => (Raise exc, self)
      | Blocked => (Blocked, self)
      end
  | (Raise exc, _) => (Raise exc, self)
  | (Blocked, _) => (Blocked, self)
  end.

Definition RunOnceExhausted : Exc :=
  RuntimeError
    "Worker configured to only run once. A call has already been submitted.".

Definition WorkerShutdown : Exc := RuntimeError "Worker is shutdown.".

Definition submit (self : Worker) (call : Call) (fault : option Fault)
  : Result unit * Worker * Call :=
  if (0 <? _submitted_count self) && _run_once self
  then (Raise RunOnceExhausted, self, call)
  else
    let '(started, self) :=
      match _shutdown_event self with
      | None => start self fault
      | Some _ => (Ok tt, self)
      end in
    match started with
    | Raise exc => (Raise exc, self, call)
    | Blocked => (Blocked, self, call)
    | Ok _ =>
        match _shutdown_event self with
        | None =>
            (Raise (AttributeError
                      "'NoneType' object has no attribute 'is_set'"),
             self, call)
        | Some ev =>
            if Event.is_set ev then (Raise WorkerShutdown, self, call)
            else
              match _loop self with
              | None =>
                  (Raise (AttributeError
                    "'NoneType' object has no attribute 'call_soon_threadsafe'"),
                   self, call)
              | Some loop =>
                  match Loop.call_soon_threadsafe call loop with
                  | (Raise exc, _) => (Raise exc, self, call)
                  | (Blocked, _) => (Blocked, self, call)
                  | (Ok _, loop) =>
                      let self := set_loop (Some loop) self in
                      let self :=
                        set_submitted_count (_submitted_count self + 1)
                          self in
                      if _run_once self then
                        let '(f, now) :=
                          Future.add_done_callback
                            (ShutdownWorker (ident self)) (future call) in
                        (Ok tt, foldl (fun w _ => shutdown w) self now,
                         set_future f call)
                      else (Ok tt, self, call)
                  end
              end
        end
    end.

End Worker.

(** ** Contexts, calls of callables, callbacks *)

(** [contextvars.copy_context()] *)
Definition copy_context (s : State) : Context := current_context s.

(** [ctx.run(callable, ...)]: the callable runs with [ctx] as the current
    context; what it changes stays in [ctx] (the second component), and the
    previous current context is restored afterwards. *)
Definition Context_run {A} (ctx : Context) (callable : State -> A * State)
    (s : State) : A * Context * State :=
  let saved := current_context s in
  let '(a, s) := callable (set_current_context ctx s) in
  (a, current_context s, set_current_context saved s).

(** [f] called with [args] and [kwargs] in the current context. *)
Definition apply (f : Callable) (args : list PyVal)
    (kwargs : gmap string PyVal) (s : State) : Result Returned * State :=
  let '(r, ctx, w) := f args kwargs (current_context s) (world s) in
  (r, set_world w (set_current_context ctx s)).

(** [await coro] in the current context, run to its end. *)
Definition await (coro : Coro) (s : State) : Result PyVal * State :=
  let '(r, ctx, w) := coro (current_context s) (world s) in
  (r, set_world w (set_current_context ctx s)).

(** [loop.create_task(coro)]: the task copies the current context. *)
Definition create_task (coro : Coro) (s : State) : Task * State :=
  ({| task_context := copy_context s; task_coro := coro |}, s).

(** [Future._invoke_callbacks]: each callback is [lambda _: w.shutdown()]
    for a worker [w] of the heap. *)
Definition _invoke_callbacks (callbacks : list Callback) (s : State) : State :=
  foldl (fun s cb =>
           match cb with
           | ShutdownWorker w =>
               set_workers (alter Worker.shutdown w (workers s)) s
           end) s callbacks.

(** ** [class Call] *)

(** What [__call__] hands back: the result, or (in an async context) an
    awaitable for it, which is the task [run] returned. *)
Inductive CallReturn : Type :=
| Value (v : PyVal)
| AwaitableResult (coro : Task).

Module Call.

Definition new (__fn : Callable) (args : list PyVal)
    (kwargs : gmap string PyVal) (s : State) : Call :=
  {| future := Future.__init__;
     fn := __fn;
     args := args;
     kwargs := kwargs;
     context := copy_context s |}.

(** [self.future.set_result(result)], [self.future.set_exception(exc)] and
    [self.future.cancel()] with the callbacks they invoke. *)
Definition future_set_result (result : PyVal) (self : Call) (s : State)
  : Result unit * Call * State :=
  let '(r, f, callbacks) := Future.set_result result (future self) in
  (r, set_future f self, _invoke_callbacks callbacks s).

Definition future_set_exception (exc : Exc) (self : Call) (s : State)
  : Result unit * Call * State :=
  let '(r, f, callbacks) := Future.set_exception exc (future self) in
  (r, set_future f self, _invoke_callbacks callbacks s).

Definition future_cancel (self : Call) (s : State) : bool * Call * State :=
  let '(b, f, callbacks) := Future.cancel (future self) in
  (b, set_future f self, _invoke_callbacks callbacks s).

Definition _run_sync (self : Call) (s : State)
  : Result (option Coro) * Call * State :=
  let '(r, ctx, s) :=
    Context_run (context self)
      (apply (fn self) (args self) (kwargs self)) s in
  let self := set_context ctx self in
  match r with
  | Ok (Awaitable result) => (Ok (Some result), self, s)
  | Raise exc =>
      match future_set_exception exc self s with
      | (Ok _, self, s) => (Ok None, self, s)
      | (Raise e, self, s) => (Raise e, self, s)
      | (Blocked, self, s) => (Blocked, self, s)
      end
  | Ok (Plain result) =>
      match future_set_result result self s with
      | (Ok _, self, s) => (Ok None, self, s)
      | (Raise e, self, s) => (Raise e, self, s)
      | (Blocked, self, s) => (Blocked, self, s)
      end
  | Blocked => (Blocked, self, s)
  end.

(** The coroutine [_run_async(coro)], run to its end in the current
    context (that of the task it was wrapped in). *)
Definition _run_async (self : Call) (coro : Coro) (s : State)
  : Result unit * Call * State :=
  let '(r, s) := await coro s in
  match r with
  | Raise exc => future_set_exception exc self s
  | Ok result => future_set_result result self s
  | Blocked => (Blocked, self, s)
  end.

(** The loop runs a task of [_run_async] in the task's own context. *)
Definition run_task (task : Task) (self : Call) (s : State)
  : Result unit * Call * State :=
  let '(r, _, s) :=
    Context_run (task_context task) (_run_async self (task_coro task)) s in
  (r, s).

(** [asyncio.run(main)]: a new loop runs a task of [main] to its end. *)
Definition asyncio_run (self : Call) (coro : Coro) (s : State)
  : Result unit * Call * State :=
  let '(task, s) := create_task coro s in
  run_task task self s.

Definition run (self : Call) (s : State)
  : Result (option Task) * Call * State :=
  match Future.set_running_or_notify_cancel (future self) with
  | (Ok false, f) => (Ok None, set_future f self, s)
  | (Ok true, f) =>
      match _run_sync (set_future f self) s with
      | (Ok (Some coro), self, s) =>
          if running_loop s then
            let '(task, ctx, s) :=
              Context_run (context self) (create_task coro) s in
            (Ok (Some task), set_context ctx self, s)
          else
            let '(r, ctx, s) :=
              Context_run (context self) (asyncio_run self coro) s in
            match r with
            | (Ok _, self) => (Ok None, set_context ctx self, s)
            | (Raise e, self) => (Raise e, set_context ctx self, s)
            | (Blocked, self) => (Blocked, set_context ctx self, s)
            end
      | (Ok None, self, s) => (Ok None, self, s)
      | (Raise e, self, s) => (Raise e, self, s)
      | (Blocked, self, s) => (Blocked, self, s)
      end
  | (Raise e, f) => (Raise e, set_future f self, s)
  | (Blocked, f) => (Blocked, set_future f self, s)
  end.

(** The coroutine [run_and_return_result()] that [__call__] returns in an
    async context, awaited to its end. *)
Definition run_and_return_result (self : Call) (coro : Task) (s : State)
  : Result PyVal * Call * State :=
  match run_task coro self s with
  | (Ok _, self, s) => (Future.result (future self), self, s)
  | (Raise e, self, s) => (Raise e, self, s)
  | (Blocked, self, s) => (Blocked, self, s)
  end.

Definition __call__ (self : Call) (s : State)
  : Result CallReturn * Call * State :=
  match run self s with
  | (Ok (Some coro), self, s) => (Ok (AwaitableResult coro), self, s)
  | (Ok None, self, s) =>
      match Future.result (future self) with
      | Ok v => (Ok (Value v), self, s)
      | Raise e => (Raise e, self, s)
      | Blocked => (Blocked, self, s)
      end
  | (Raise e, self, s) => (Raise e, self, s)
  | (Blocked, self, s) => (Blocked, self, s)
  end.

End Call.

(** ** The global worker *)

(** [GLOBAL_WORKER is None or not GLOBAL_WORKER.thread.is_alive()] *)
Definition _needs_worker (s : State) : bool :=
  match GLOBAL_WORKER s with
  | None => true
  | Some w =>
      match workers s !! w with
      | Some obj => negb (Thread.is_alive (thread obj))
      | None => true
      end
  end.

(** [GLOBAL_WORKER = Worker(daemon=True, name="GlobalWorkerThread")] *)
Definition _assign_worker (s : State) : State :=
  let '(w, s) := Worker.__init__ "GlobalWorkerThread" true false s in
  set_GLOBAL_WORKER (Some w) s.

(** [GLOBAL_WORKER.start()]: the global is read again. *)
Definition _start_worker (s : State) : Result unit * State :=
  match GLOBAL_WORKER s with
  | Some w =>
      match workers s !! w with
      | Some obj =>
          let '(r, obj) := Worker.start obj (bootstrap_fault s) in
          (r, set_workers (<[w := obj]> (workers s)) s)
      | None =>
          (Raise (AttributeError "object has no attribute 'start'"), s)
      end
  | None =>
      (Raise (AttributeError "'NoneType' object has no attribute 'start'"), s)
  end.

Definition get_global_worker (s : State) : Result (option nat) * State :=
  if _needs_worker s then
    match _start_worker (_assign_worker s) with
    | (Ok _, s) => (Ok (GLOBAL_WORKER s), s)
    | (Raise e, s) => (Raise e, s)
    | (Blocked, s) => (Blocked, s)
    end
  else (Ok (GLOBAL_WORKER s), s).

(** *** Calls of [get_global_worker] from two threads

    The function takes no lock, so between two statements that read or
    write the module-level variable another thread may run.  A thread inside
    [get_global_worker] is at one of four points: about to evaluate the
    condition, about to construct and assign, about to start, about to
    return.  Each turn below runs one of these statements as a whole; the
    interpreter may switch threads more often than that, never less. *)
Inductive Point : Type :=
| AtCondition
| AtAssign
| AtStart
| AtReturn
| Exited (r : Result (option nat)).

Definition advance (pt : Point) (s : State) : Point * State :=
  match pt with
  | AtCondition => (if _needs_worker s then AtAssign else AtReturn, s)
  | AtAssign => (AtStart, _assign_worker s)
  | AtStart =>
      match _start_worker s with
      | (Ok _, s) => (AtReturn, s)
      | (Raise e, s) => (Exited (Raise e), s)
      | (Blocked, s) => (Exited Blocked, s)
      end
  | AtReturn => (Exited (Ok (GLOBAL_WORKER s)), s)
  | Exited r => (Exited r, s)
  end.

Record Threads : Type := {
  first : Point;
  second : Point;
  shared : State
}.

Inductive Turn : Type := T1 | T2.

Definition turn (t : Turn) (c : Threads) : Threads :=
  match t with
  | T1 => let '(pt, s) := advance (first c) (shared c) in
          {| first := pt; second := second c; shared := s |}
  | T2 => let '(pt, s) := advance (second c) (shared c) in
          {| first := first c; second := pt; shared := s |}
  end.

Definition schedule (ts : list Turn) (c : Threads) : Threads :=
  foldl (fun c t => turn t c) c ts.

(** Both threads enter [get_global_worker]. *)
Definition enter (s : State) : Threads :=
  {| first := AtCondition; second := AtCondition; shared := s |}.

(** The workers of the heap whose thread is alive. *)
Definition live_workers (s : State) : gmap nat Worker :=
  filter (fun p => Thread.is_alive (thread p.2) = true) (workers s).

(** ** The life of one call

    The holder of a call may cancel its future, [Worker.submit] may add a
    done-callback to it, a worker loop invokes [run], and the loop resumes
    the task [run] left on it. *)
Record Life : Type := {
  call : Call;
  tasks : list Task;
  state : State
}.

Inductive Op : Type :=
| DoCancel
| DoAddCallback (callback : Callback)
| DoRun
| DoResume.

Definition perform (op : Op) (l : Life) : Result unit * Life :=
  match op with
  | DoCancel =>
      let '(_, c, s) := Call.future_cancel (call l) (state l) in
      (Ok tt, {| call := c; tasks := tasks l; state := s |})
  | DoAddCallback callback =>
      let '(f, now) := Future.add_done_callback callback (future (call l)) in
      (Ok tt, {| call := set_future f (call l); tasks := tasks l;
                 state := _invoke_callbacks now (state l) |})
  | DoRun =>
      match Call.run (call l) (state l) with
      | (Ok (Some task), c, s) =>
          (Ok tt, {| call := c; tasks := tasks l ++ [task]; state := s |})
      | (Ok None, c, s) => (Ok tt, {| call := c; tasks := tasks l; state := s |})
      | (Raise e, c, s) =>
          (Raise e, {| call := c; tasks := tasks l; state := s |})
      | (Blocked, c, s) =>
          (Blocked, {| call := c; tasks := tasks l; state := s |})
      end
  | DoResume =>
      match tasks l with
      | [] => (Ok tt, l)
      | task :: rest =>
          let '(r, c, s) := Call.run_task task (call l) (state l) in
          (r, {| call := c; tasks := rest; state := s |})
      end
  end.

Fixpoint outcomes (ops : list Op) (l : Life) : list (Result unit) :=
  match ops with
  | [] => []
  | op :: ops => (perform op l).1 :: outcomes ops (perform op l).2
  end.

(** The channel before the first operation and after each one. *)
Fixpoint history (ops : list Op) (l : Life) : list Channel :=
  match ops with
  | [] => [channel (future (call l))]
  | op :: ops =>
      channel (future (call l)) :: history ops (perform op l).2
  end.

Definition after (ops : list Op) (l : Life) : Life :=
  foldl (fun l op => (perform op l).2) l ops.

(** While a task of the call is on a loop the future is running, and there
    is never more than one such task. *)
Definition in_flight (l : Life) : Prop :=
  match tasks l with
  | [] => True
  | [_] => _state (future (call l)) = RUNNING
  | _ => False
  end.

(** A newly created call in the hands of its submitter. *)
Definition born (__fn : Callable) (args : list PyVal)
    (kwargs : gmap string PyVal) (s : State) : Life :=
  {| call := Call.new __fn args kwargs s; tasks := []; state := s |}.

(** ** Notions the statements use *)

(** What executing a callable to its end yields in a given context and world:
    its return value, the value of the awaitable it returned once awaited,
    or the exception raised on the way. *)
Definition evaluate (f : Callable) (args : list PyVal)
    (kwargs : gmap string PyVal) (ctx : Context) (w : World) : Result PyVal :=
  match f args kwargs ctx w with
  | (Ok (Plain v), _, _) => Ok v
  | (Ok (Awaitable coro), ctx, w) => (coro ctx w).1.1
  | (Raise exc, _, _) => Raise exc
  | (Blocked, _, _) => Blocked
  end.

(** The channel state an execution outcome resolves to. *)
Definition resolved (r : Result PyVal) : Channel :=
  match r with
  | Ok v => Fulfilled v
  | Raise exc => Failed exc
  | Blocked => Pending
  end.

(** A call with no task on any loop yet. *)
Definition alone (self : Call) (s : State) : Life :=
  {| call := self; tasks := []; state := s |}.

(** Calling the call and reading what it returns: the value itself, or the
    value of the awaitable [__call__] returned, awaited by the caller. *)
Definition invoke (self : Call) (s : State) : Result PyVal * Call * State :=
  match Call.__call__ self s with
  | (Ok (Value v), self, s) => (Ok v, self, s)
  | (Ok (AwaitableResult coro), self, s) =>
      Call.run_and_return_result self coro s
  | (Raise e, self, s) => (Raise e, self, s)
  | (Blocked, self, s) => (Blocked, self, s)
  end.

(** A sample interpreter state, and wrapped functions: one that counts its
    invocations in the world and returns [1 + 1], one that raises
    [ValueError("x")], one that reads the context variable ["request"]. *)
Definition fresh_state : State :=
  {| current_context := ∅; running_loop := false; world := ∅;
     workers := ∅; GLOBAL_WORKER := None; atexit_registry := [];
     bootstrap_fault := None |}.

Definition invocations (w : World) : Z :=
  match w !! "invocations" with Some (PyInt n) => n | _ => 0 end.

Definition one_plus_one : Callable :=
  fun _ _ ctx w =>
    (Ok (Plain (PyInt (1 + 1))), ctx,
     <["invocations" := PyInt (invocations w + 1)]> w).

Definition raise_value_error : Callable :=
  fun _ _ ctx w => (Raise (Exception "ValueError" "x"), ctx, w).

Definition read_request : Callable :=
  fun _ _ ctx w =>
    (Ok (Plain (default PyNone (ctx !! "request"))), ctx, w).


(** The worker as [Worker()] constructs it, before anything is submitted. *)
Definition new_worker (run_once : bool) : Worker :=
  {| ident := 0;
     thread := Thread.__init__ "WorkerThread" false;
     _ready_future := Future.__init__;
     _loop := None;
     _shutdown_event := None;
     _run_once := run_once;
     _submitted_count := 0 |}.

(** The same worker once [start()] has returned. *)
Definition started_worker (run_once : bool) : Worker :=
  (Worker.start (new_worker run_once) None).2.

(** The handles waiting on the loop of a worker. *)
Definition queue (w : Worker) : list Call :=
  match _loop w with
  | Some loop => _ready loop
  | None => []
  end.

(** A run-once worker that has accepted a call. *)
Definition exhausted (w : Worker) : Prop :=
  _run_once w = true /\ 0 < _submitted_count w.

(** A worker that was started and whose shutdown signal is set. *)
Definition shut_down (w : Worker) : Prop :=
  exists ev, _shutdown_event w = Some ev /\ Event.is_set ev = true.

(** [submit] has scheduled the call and counted it. *)
Definition accepted (self : Worker) (call : Call) (self' : Worker) : Prop :=
  queue self' = queue self ++ [call] /\
  _submitted_count self' = _submitted_count self + 1.

(** What the constructor and the methods keep true of a worker: before its
    thread is started the ready future is as created and there is no loop;
    once the shutdown event exists the thread has been started and there is
    a loop. *)
Definition consistent (w : Worker) : Prop :=
  match _shutdown_event w with
  | None =>
      _started (thread w) = false ->
      _ready_future w = Future.__init__ /\ _loop w = None
  | Some ev =>
      _started (thread w) = true /\
      exists loop, _loop w = Some loop
  end.

(** The thread of the worker ended without a shutdown and [asyncio.run]
    closed the loop under the worker. *)
Definition loop_closed (w : Worker) : Prop :=
  exists loop, _loop w = Some loop /\ _closed loop = true.

(** The two-case reading of [submit]: it raises only as [RunOnceExhausted]
    on an exhausted run-once worker or as [WorkerShutdown] on a shut-down
    one, and accepts the call otherwise. *)
Definition submit_raises_in_two_cases (self : Worker) (call : Call)
    (fault : option Fault) : Prop :=
  match Worker.submit self call fault with
  | (Raise e, _, _) =>
      (e = Worker.RunOnceExhausted /\ exhausted self) \/
      (e = Worker.WorkerShutdown /\ shut_down self)
  | (Ok _, self', _) => accepted self call self'
  | (Blocked, _, _) => False
  end.

(** The creation branch of [get_global_worker] read as unconditional: the
    call returns a worker that was not there before, is cached, is a daemon
    and was started. *)
Definition creates_and_returns (s : State) : Prop :=
  exists w obj s',
    get_global_worker s = (Ok (Some w), s') /\
    workers s !! w = None /\
    workers s' !! w = Some obj /\
    GLOBAL_WORKER s' = Some w /\
    daemon (thread obj) = true /\
    _started (thread obj) = true.

(** The workers constructed between two states. *)
Definition created (s s' : State) : gset nat :=
  dom (workers s') ∖ dom (workers s).

(** Two calls of [get_global_worker] scheduled as [ts] from state [s] both
    return one and the same worker, and at most one worker was constructed. *)
Definition one_shared_worker (ts : list Turn) (s : State) : Prop :=
  let c := schedule ts (enter s) in
  (exists w, first c = Exited (Ok (Some w)) /\
             second c = Exited (Ok (Some w))) /\
  (size (created s (shared c)) <= 1)%nat.

Definition other (t : Turn) : Turn :=
  match t with T1 => T2 | T2 => T1 end.

(** The calls do not overlap: thread [t] goes through all of
    [get_global_worker] before the other thread enters it. *)
Definition serial (t : Turn) : list Turn :=
  replicate 4 t ++ replicate 4 (other t).

(** Thread 1 evaluates the condition, then thread 2 runs its whole call, then
    thread 1 goes on. *)
Definition overlapping : list Turn := [T1; T2; T2; T2; T2; T1; T1; T1].

(** An asynchronous function: calling it returns an awaitable that, once
    awaited, reads the context variable ["request"]. *)
Definition read_request_async : Callable :=
  fun _ _ ctx w =>
    (Ok (Awaitable
           (fun ctx w => (Ok (default PyNone (ctx !! "request")), ctx, w))),
     ctx, w).

(** A submitter whose context holds one request, and a thread with a running
    loop whose own context holds another. *)
Definition submitter_state : State :=
  set_current_context (<["request" := PyStr "from-submitter"]> ∅) fresh_state.

Definition loop_thread_state : State :=
  {| current_context := <["request" := PyStr "from-worker"]> ∅;
     running_loop := true; world := ∅; workers := ∅;
     GLOBAL_WORKER := None; atexit_registry := [];
     bootstrap_fault := None |}.

(** ** The life of one worker

    What can happen to a worker object: [start], [submit] and [shutdown] are
    called on it (the last also by the done-callback of a run-once call and
    by the exit hook); its thread comes to its end once the shutdown signal
    is set ([OpThreadExit]); and its thread comes to its end for any other
    reason ([OpThreadOver]): the set-up failed, or [asyncio.run] raised
    while calls were running on the loop.  The calls on the loop act on the
    worker in no other way; that the loop takes the handles off its queue
    as it runs them is left out, so the queue is the record of what was
    scheduled, in order. *)
Inductive WorkerOp : Type :=
| OpStart (fault : option Fault)
| OpSubmit (call : Call) (fault : option Fault)
| OpShutdown
| OpThreadExit
| OpThreadOver.

Definition operate (op : WorkerOp) (w : Worker) : Result unit * Worker :=
  match op with
  | OpStart fault => Worker.start w fault
  | OpSubmit call fault => (Worker.submit w call fault).1
  | OpShutdown => (Ok tt, Worker.shutdown w)
  | OpThreadExit => (Ok tt, Worker._wake w)
  | OpThreadOver => (Ok tt, Worker._entrypoint_over w)
  end.

Definition operated (ops : list WorkerOp) (w : Worker) : Worker :=
  foldl (fun w op => (operate op w).2) w ops.

(** The call an operation got accepted, if it is a [submit] that returned. *)
Definition accepted_call (op : WorkerOp) (w : Worker) : list Call :=
  match op, (operate op w).1 with
  | OpSubmit call _, Ok _ => [call]
  | _, _ => []
  end.

(** The calls accepted along a sequence of operations, in order. *)
Fixpoint accepted_calls (ops : list WorkerOp) (w : Worker) : list Call :=
  match ops with
  | [] => []
  | op :: ops => accepted_call op w ++ accepted_calls ops (operate op w).2
  end.

(** What [_invoke_callbacks] does to the heap of workers. *)
Definition shut_all (callbacks : list Callback) (ws : gmap nat Worker)
  : gmap nat Worker :=
  foldl (fun ws cb =>
           match cb with
           | ShutdownWorker w => alter Worker.shutdown w ws
           end) ws callbacks.

(** Worker [i] of the heap is there and its shutdown signal is set. *)
Definition shut_down_at (i : nat) (ws : gmap nat Worker) : Prop :=
  exists w, ws !! i = Some w /\ shut_down w.

(** The done-callback of a run-once worker [i] on a future: it is among the
    callbacks, the worker is in the heap with its shutdown event, and the
    signal is set once the future is done. *)
Definition will_shut_down (i : nat) (f : Future) (ws : gmap nat Worker)
  : Prop :=
  In (ShutdownWorker i) (_done_callbacks f) /\
  (exists w, ws !! i = Some w /\ is_Some (_shutdown_event w)) /\
  (Future.done f = true -> shut_down_at i ws).

(** The environment changes: the set-up of new threads fails, or works
    again. *)
Definition set_bootstrap_fault (fault : option Fault) (s : State)
  : State :=
  {| current_context := current_context s; running_loop := running_loop s;
     world := world s; workers := workers s;
     GLOBAL_WORKER := GLOBAL_WORKER s; atexit_registry := atexit_registry s;
     bootstrap_fault := fault |}.

(** The worker [w] of the heap was shut down and its thread has come to its
    end. *)
Definition retire (w : nat) (s : State) : State :=
  set_workers
    (alter (fun obj => Worker._wake (Worker.shutdown obj)) w (workers s)) s.

(** The thread of worker [w] of the heap has come to its end, whatever the
    reason. *)
Definition thread_over (w : nat) (s : State) : State :=
  set_workers (alter Worker._entrypoint_over w (workers s)) s.

(** Both threads pass the condition, both assign, then both start whatever
    the global refers to. *)
Definition racing : list Turn := [T1; T2; T2; T1; T2; T1; T2].

(** A daemon worker as [get_global_worker] constructs and starts it. *)
Definition started_worker_named (name : string) : Worker :=
  (Worker.start
     {| ident := 0;
        thread := Thread.__init__ name true;
        _ready_future := Future.__init__;
        _loop := None;
        _shutdown_event := None;
        _run_once := false;
        _submitted_count := 0 |} None).2.

(** ** [Call.__repr__]

    The method of [Call] that renders a call for the log messages.  What
    the interpreter supplies is taken as given: [name], the value of
    [getattr(self.fn, "__name__", str(self.fn))]; [repr], the built-in on
    the argument values; and [items], the pairs of [self.kwargs.items()] in
    the order of the dictionary, which the map of the record does not keep.
    Strings are sequences of characters. *)
Definition __repr__ (name : string) (repr : PyVal -> string)
    (items : list (string * PyVal)) (self : Call) : string :=
  let call_args :=
    String.concat ", "
      (map repr (args self)
       ++ map (fun kv => String.append kv.1 (String.append "=" (repr kv.2)))
            items) in
  let call_args :=
    if (100 <? String.length call_args)%nat
    then String.append (String.substring 0 100 call_args) "..."
    else call_args in
  String.append name (String.append "(" (String.append call_args ")")).

(** The argument text before the maximum length is enforced. *)
Definition joined_args (repr : PyVal -> string)
    (items : list (string * PyVal)) (self : Call) : string :=
  String.concat ", "
    (map repr (args self)
     ++ map (fun kv => String.append kv.1 (String.append "=" (repr kv.2)))
          items).

(** A rendering of values good enough for examples. *)
Definition sample_repr (v : PyVal) : string :=
  match v with
  | PyNone => "None"
  | PyBool true => "True"
  | PyBool false => "False"
  | PyInt _ => "<int>"
  | PyStr s => String.append "'" (String.append s "'")
  end.

(** A wrapped function that raises an exception object which is false: an
    instance of a class deriving from [Exception] that defines [__bool__] to
    return [False]. *)
Definition raise_falsy : Callable :=
  fun _ _ ctx w => (Raise (FalsyException "Quiet" "x"), ctx, w).
(** ** The deferred call *)

Lemma cancel_pending (self : Call) (s : State) :
  _state (future self) = PENDING ->
  _state (future (Call.future_cancel self s).1.2) = CANCELLED.
Proof.
  intros Hp. unfold Call.future_cancel, Future.cancel. rewrite Hp. reflexivity.
Qed.

(** C2: when the future of a call was cancelled before [run] is invoked,
    [run] returns [None] at once -- no task to await -- and the wrapped
    function is not called: the interpreter state, the context of the call
    and the result and exception slots of the future are as before, and the
    channel stays Cancelled. *)
Theorem run_skips_cancelled_call (self : Call) (s : State) :
  _state (future self) = CANCELLED ->
  exists self',
    Call.run self s = (Ok None, self', s) /\
    channel (future self') = Cancelled /\
    _result (future self') = _result (future self) /\
    _exception (future self') = _exception (future self) /\
    context self' = context self.
Proof.
  intros Hc.
  exists (set_future (Future.set_state CANCELLED_AND_NOTIFIED (future self))
            self).
  unfold Call.run, Future.set_running_or_notify_cancel.
  rewrite Hc. repeat split.
Qed.

Lemma run_skips_cancelled_call_witness :
  let self := (Call.future_cancel
                 (Call.new one_plus_one [] ∅ fresh_state) fresh_state).1.2 in
  _state (future self) = CANCELLED /\
  exists self',
    Call.run self fresh_state = (Ok None, self', fresh_state) /\
    channel (future self') = Cancelled /\
    _result (future self') = _result (future self) /\
    _exception (future self') = _exception (future self) /\
    context self' = context self.
Proof.
  split; [reflexivity|].
  apply (run_skips_cancelled_call
           (Call.future_cancel
              (Call.new one_plus_one [] ∅ fresh_state) fresh_state).1.2
           fresh_state).
  reflexivity.
Defined.

(** Unfolding the methods of a call down to the future operations. *)
Ltac unfold_call :=
  unfold invoke, Call.__call__, Call.run_and_return_result, Call.run,
    Call.asyncio_run, Call.run_task, Call._run_async, Call._run_sync,
    Call.future_set_result, Call.future_set_exception, Call.future_cancel,
    Context_run, create_task, copy_context, apply, await,
    Future.set_running_or_notify_cancel, Future.set_result,
    Future.set_exception, Future.cancel, Future.result, Future.done,
    Future.set_state, channel in *.

(** When the wrapped function of a pending call raises (directly, or from
    the awaitable it returned), [run] and the task it may leave on the loop
    both end normally -- nothing propagates to the worker -- and the channel
    is Failed with that very exception.  Reading the result raises it, to
    [result()] and to the caller of the call alike, when the exception
    object is true. *)
Lemma raised_exception_is_captured (self : Call) (s : State) (exc : Exc) :
  _state (future self) = PENDING ->
  evaluate (fn self) (args self) (kwargs self) (context self) (world s)
    = Raise exc ->
  outcomes [DoRun; DoResume] (alone self s) = [Ok tt; Ok tt] /\
  channel (future (call (after [DoRun; DoResume] (alone self s))))
    = Failed exc /\
  (truthy exc = true ->
   Future.result (future (call (after [DoRun; DoResume] (alone self s))))
   = Raise exc /\
   (invoke self s).1.1 = Raise exc).
Proof.
  intros Hp Hev. unfold evaluate in Hev.
  unfold after, outcomes, alone, perform. cbn [foldl call tasks state fst snd].
  unfold_call. rewrite Hp. cbn.
  destruct (fn self (args self) (kwargs self) (context self) (world s))
    as [[r ctx] w] eqn:Hfn.
  destruct r as [[v|coro]|e|]; try discriminate; cbn.
  - destruct (running_loop s) eqn:Hloop; cbn.
    + destruct (coro ctx w) as [[r' ctx'] w'] eqn:Hco. cbn in Hev. subst r'.
      cbn. split; [reflexivity|split; [reflexivity|]].
      intros Ht; cbn; rewrite ?Ht; split; reflexivity.
    + destruct (coro ctx w) as [[r' ctx'] w'] eqn:Hco. cbn in Hev. subst r'.
      cbn. split; [reflexivity|split; [reflexivity|]].
      intros Ht; cbn; rewrite ?Ht; split; reflexivity.
  - injection Hev as ->. cbn. split; [reflexivity|split; [reflexivity|]].
      intros Ht; cbn; rewrite ?Ht; split; reflexivity.
Qed.

(** C3: the code at the failing input.  For a call whose wrapped function
    raises an exception object that is false, the exception is captured --
    [run] ends normally and the channel is Failed with that very object --
    but it is not re-raised: [result()] tests the truth value of the stored
    exception, so reading the result, and calling the call, return [None]. *)
Theorem falsy_exception_is_not_reraised :
  let self := Call.new raise_falsy [] ∅ fresh_state in
  let exc := FalsyException "Quiet" "x" in
  evaluate (fn self) (args self) (kwargs self) (context self)
    (world fresh_state) = Raise exc /\
  outcomes [DoRun; DoResume] (alone self fresh_state) = [Ok tt; Ok tt] /\
  channel (future (call (after [DoRun; DoResume] (alone self fresh_state))))
    = Failed exc /\
  Future.result
    (future (call (after [DoRun; DoResume] (alone self fresh_state))))
    = Ok PyNone /\
  (invoke self fresh_state).1.1 = Ok PyNone.
Proof. cbn zeta. repeat split. Qed.

(** Reading a resolved future: what [result()] gives follows the channel,
    for a failed one as far as the exception object is true. *)
Lemma result_of_channel (f : Future) :
  Future.result f =
  match channel f with
  | Pending => Blocked
  | Cancelled => Raise CancelledError
  | Fulfilled v => Ok v
  | Failed exc => if truthy exc then Raise exc else Ok (_result f)
  end.
Proof.
  unfold Future.result, channel.
  destruct (_state f); try reflexivity. destruct (_exception f); reflexivity.
Qed.

(** A resolved channel is left as it is by whatever the holder, [run] or a
    resumed task do next. *)
Lemma perform_terminal (op : Op) (l : Life) :
  terminal (channel (future (call l))) = true ->
  channel (future (call (perform op l).2)) = channel (future (call l)).
Proof.
  intros Ht. destruct l as [c ts s]. cbn [call tasks state] in *.
  destruct op as [|cb| |]; unfold perform; cbn [call tasks state].
  - unfold_call. destruct (_state (future c)) eqn:Hs; cbn; rewrite ?Hs;
      try reflexivity; discriminate.
  - unfold Future.add_done_callback, Future.done, channel in *.
    destruct (_state (future c)) eqn:Hs; cbn; rewrite ?Hs;
      try reflexivity; discriminate.
  - unfold_call. destruct (_state (future c)) eqn:Hs; cbn; rewrite ?Hs;
      try reflexivity; discriminate.
  - destruct ts as [|t ts]; [reflexivity|].
    unfold_call.
    destruct (task_coro t (current_context
                (set_current_context (task_context t) s))
                (world (set_current_context (task_context t) s)))
      as [[r ctx] w].
    destruct r as [v|e|]; destruct (_state (future c)) eqn:Hs; cbn;
      rewrite ?Hs; try reflexivity; discriminate.
Qed.

Lemma history_terminal (ops : list Op) (l : Life) :
  terminal (channel (future (call l))) = true ->
  history ops l = repeat (channel (future (call l))) (S (length ops)).
Proof.
  revert l. induction ops as [|op ops IH]; intros l Ht; [reflexivity|].
  cbn [history length]. rewrite IH.
  - rewrite (perform_terminal op l Ht). reflexivity.
  - rewrite (perform_terminal op l Ht). exact Ht.
Qed.

Lemma after_terminal (ops : list Op) (l : Life) :
  terminal (channel (future (call l))) = true ->
  channel (future (call (after ops l))) = channel (future (call l)).
Proof.
  revert l. induction ops as [|op ops IH]; intros l Ht; [reflexivity|].
  unfold after in *. cbn [foldl]. rewrite IH.
  - apply perform_terminal, Ht.
  - rewrite (perform_terminal op l Ht). exact Ht.
Qed.

Lemma history_shape (ops : list Op) (l : Life) :
  exists n m o,
    terminal o = true /\
    history ops l = repeat Pending n ++ repeat o m.
Proof.
  revert l. induction ops as [|op ops IH]; intros l.
  - destruct (channel (future (call l))) eqn:Hc.
    + exists 1%nat, 0%nat, Cancelled. cbn. rewrite Hc. auto.
    + exists 0%nat, 1%nat, Cancelled. cbn. rewrite Hc. auto.
    + exists 0%nat, 1%nat, (Fulfilled value). cbn. rewrite Hc. auto.
    + exists 0%nat, 1%nat, (Failed error). cbn. rewrite Hc. auto.
  - destruct (terminal (channel (future (call l)))) eqn:Ht.
    + exists 0%nat, (S (length (op :: ops))), (channel (future (call l))).
      split; [exact Ht|]. apply history_terminal, Ht.
    + destruct (IH (perform op l).2) as (n & m & o & Ho & Hh).
      exists (S n), m, o. split; [exact Ho|].
      cbn [history]. rewrite Hh.
      destruct (channel (future (call l))); try discriminate. reflexivity.
Qed.

Lemma perform_in_flight (op : Op) (l : Life) :
  in_flight l ->
  in_flight (perform op l).2 /\ (perform op l).1 <> Raise InvalidStateError.
Proof.
  intros Hi. destruct l as [c ts s]. unfold in_flight in *.
  cbn [call tasks state] in *.
  destruct op as [|cb| |]; unfold perform; cbn [call tasks state].
  - unfold_call.
    destruct ts as [|t [|t' ts]]; [| |contradiction].
    + destruct (_state (future c)); cbn; split; auto; discriminate.
    + rewrite Hi. cbn. split; auto; discriminate.
  - unfold Future.add_done_callback, Future.done.
    destruct ts as [|t [|t' ts]]; [| |contradiction].
    + destruct (_state (future c)); cbn; split; auto; discriminate.
    + rewrite Hi. cbn. split; auto; discriminate.
  - unfold_call.
    destruct ts as [|t [|t' ts]]; [| |contradiction].
    + destruct (_state (future c)) eqn:Hs; cbn;
        try (split; [exact I|discriminate]).
      destruct (fn c (args c) (kwargs c) (context c) (world s))
        as [[r ctx] w].
      destruct r as [[v|coro]|e|]; cbn;
        try (split; [exact I|discriminate]).
      destruct (running_loop s); cbn.
      * split; [reflexivity|discriminate].
      * destruct (coro ctx w) as [[r' ctx'] w'].
        destruct r'; cbn; split; try exact I; discriminate.
    + rewrite Hi. cbn. split; [exact Hi|discriminate].
  - destruct ts as [|t [|t' ts]]; [| |contradiction].
    + cbn. split; [exact I|discriminate].
    + unfold_call. rewrite Hi.
      destruct (task_coro t (current_context
                  (set_current_context (task_context t) s))
                  (world (set_current_context (task_context t) s)))
        as [[r ctx] w].
      destruct r; cbn; split; try exact I; discriminate.
Qed.

Lemma outcomes_in_flight (ops : list Op) (l : Life) :
  in_flight l ->
  Forall (fun r => r <> Raise InvalidStateError) (outcomes ops l).
Proof.
  revert l. induction ops as [|op ops IH]; intros l Hi; cbn [outcomes].
  - constructor.
  - destruct (perform_in_flight op l Hi) as [Hi' Hr].
    constructor; [exact Hr|]. apply IH, Hi'.
Qed.

(** C1: along any sequence of cancellations by the holder, invocations of
    [run] and resumptions of the task [run] left on the loop, the channel of
    a newly created call reads Pending for a while and then one and the same
    terminal state for ever: it is resolved at most once.  No step even
    attempts a second resolution, which the future would answer with
    [InvalidStateError]. *)
Theorem channel_resolved_at_most_once (__fn : Callable) (args : list PyVal)
    (kwargs : gmap string PyVal) (s : State) (ops : list Op) :
  (exists n m o,
     terminal o = true /\
     history ops (born __fn args kwargs s) = repeat Pending n ++ repeat o m) /\
  Forall (fun r => r <> Raise InvalidStateError)
    (outcomes ops (born __fn args kwargs s)).
Proof.
  split.
  - apply history_shape.
  - apply outcomes_in_flight. exact I.
Qed.

(** C4: when the wrapped function of a pending call (a future as
    [Future()] leaves it: pending, no exception) returns a plain
    (non-awaitable) value, [run] returns [None] and leaves the channel
    Fulfilled with exactly that value; whatever happens to the call
    afterwards, the channel keeps that state -- it was resolved once -- and
    every read of the result, through [result()] or by calling the call,
    gives that value. *)
Theorem returned_value_resolves_once (self : Call) (s : State) (v : PyVal)
    (ctx : Context) (w : World) (ops : list Op) :
  _state (future self) = PENDING ->
  _exception (future self) = None ->
  fn self (args self) (kwargs self) (context self) (world s)
    = (Ok (Plain v), ctx, w) ->
  (Call.run self s).1.1 = Ok None /\
  channel (future (Call.run self s).1.2) = Fulfilled v /\
  (invoke self s).1.1 = Ok v /\
  history (DoRun :: ops) (alone self s)
    = Pending :: repeat (Fulfilled v) (S (length ops)) /\
  Future.result (future (call (after (DoRun :: ops) (alone self s)))) = Ok v.
Proof.
  intros Hp He Hfn.
  assert (Hrun : exists self' s',
             Call.run self s = (Ok None, self', s') /\
             channel (future self') = Fulfilled v /\
             (invoke self s).1.1 = Ok v).
  { unfold_call. rewrite Hp. cbn. rewrite Hfn. cbn. rewrite He. cbn.
    eauto. }
  destruct Hrun as (self' & s' & Hrun & Hch & Hinv).
  assert (Hl : (perform DoRun (alone self s)).2
               = {| call := self'; tasks := []; state := s' |}).
  { unfold perform, alone. cbn [call tasks state]. rewrite Hrun. reflexivity. }
  assert (Ht : terminal (channel (future (call (perform DoRun (alone self s)).2)))
               = true).
  { rewrite Hl. cbn [call]. rewrite Hch. reflexivity. }
  rewrite Hrun. cbn [fst snd]. repeat split; try assumption.
  - cbn [history]. rewrite (history_terminal ops _ Ht).
    rewrite Hl. cbn [call]. rewrite Hch.
    unfold alone, channel. cbn [call]. rewrite Hp. reflexivity.
  - unfold after. cbn [foldl]. rewrite result_of_channel.
    fold (after ops (perform DoRun (alone self s)).2).
    rewrite (after_terminal ops _ Ht). rewrite Hl. cbn [call].
    rewrite Hch. reflexivity.
Qed.

Lemma returned_value_resolves_once_witness :
  let self := Call.new one_plus_one [] ∅ fresh_state in
  let ops := [DoRun; DoCancel; DoResume] in
  _state (future self) = PENDING /\
  _exception (future self) = None /\
  fn self (args self) (kwargs self) (context self) (world fresh_state)
    = (Ok (Plain (PyInt 2)), ∅, <["invocations" := PyInt 1]> ∅) /\
  (Call.run self fresh_state).1.1 = Ok None /\
  channel (future (Call.run self fresh_state).1.2) = Fulfilled (PyInt 2) /\
  (invoke self fresh_state).1.1 = Ok (PyInt 2) /\
  history (DoRun :: ops) (alone self fresh_state)
    = Pending :: repeat (Fulfilled (PyInt 2)) (S (length ops)) /\
  Future.result
    (future (call (after (DoRun :: ops) (alone self fresh_state))))
    = Ok (PyInt 2).
Proof.
  split; [reflexivity|]. split; [reflexivity|]. split; [reflexivity|].
  apply (returned_value_resolves_once
           (Call.new one_plus_one [] ∅ fresh_state) fresh_state (PyInt 2)
           ∅ (<["invocations" := PyInt 1]> ∅) [DoRun; DoCancel; DoResume]);
    reflexivity.
Defined.

(** C5: [Call.new] stores the context that is current at creation, and the
    wrapped function -- together with the awaitable it may return -- is
    executed in that stored context: for any state of the thread that runs
    the call, whatever its own current context, the channel ends up as the
    outcome the function has in the submitter's context, and the running
    thread's current context is the same before and after. *)
Theorem function_runs_in_creation_context (__fn : Callable)
    (args : list PyVal) (kwargs : gmap string PyVal)
    (submitter runner : State) :
  context (Call.new __fn args kwargs submitter) = current_context submitter /\
  channel (future (call (after [DoRun; DoResume]
                           (alone (Call.new __fn args kwargs submitter)
                              runner))))
    = resolved (evaluate __fn args kwargs (current_context submitter)
                  (world runner)) /\
  current_context
    (state (after [DoRun; DoResume]
              (alone (Call.new __fn args kwargs submitter) runner)))
    = current_context runner.
Proof.
  split; [reflexivity|].
  unfold after, alone, perform, evaluate, Call.new.
  cbn [foldl call tasks state fst snd]. unfold_call. cbn.
  destruct (__fn args kwargs (current_context submitter) (world runner))
    as [[r ctx] w].
  assert (Hcb : forall cbs s,
             current_context (_invoke_callbacks cbs s) = current_context s).
  { clear. intros cbs. induction cbs as [|[i] cbs IH]; intros s;
      [reflexivity|]. cbn. unfold _invoke_callbacks in IH. rewrite IH.
    reflexivity. }
  destruct r as [[v|coro]|e|]; cbn; try (split; reflexivity).
  destruct (running_loop runner); cbn;
    destruct (coro ctx w) as [[r' ctx'] w']; destruct r'; cbn;
    split; reflexivity.
Qed.

(** ** The worker *)

Ltac unfold_worker :=
  unfold Worker.submit, Worker.start, Worker._entrypoint,
    Worker._run_until_shutdown, Worker._startup_failed, Worker._exit,
    Worker._wake, Worker.shutdown, Thread.start, Thread.finish,
    Thread.is_alive, Loop.call_soon_threadsafe, Loop.close, Loop.new,
    Event.set, Event.is_set, Event.__init__, Future.add_done_callback,
    Future.set_result, Future.set_exception, Future.result, Future.done,
    set_thread, set_loop, set_shutdown_event, set_ready_future,
    set_submitted_count in *.

Lemma new_worker_constructed (run_once : bool) :
  workers (Worker.__init__ "WorkerThread" false run_once fresh_state).2
    !! 0%nat = Some (new_worker run_once).
Proof. reflexivity. Qed.

Lemma consistent_init (name : string) (daemon run_once : bool) (s : State)
    (w : nat) (s' : State) :
  Worker.__init__ name daemon run_once s = (w, s') ->
  exists obj, workers s' !! w = Some obj /\ consistent obj /\ ident obj = w.
Proof.
  unfold Worker.__init__. intros H. injection H as <- <-.
  eexists. split.
  - destruct daemon; cbn; apply lookup_insert_eq.
  - split; [|reflexivity]. unfold consistent. cbn. auto.
Qed.

(** Starting a worker whose thread was not started: the outcome is decided
    by the set-up steps of the thread.  [start()] returns when the set-up
    succeeds, raises the exception the coroutine caught and put on the ready
    future, and waits for ever on the ready future when the set-up fails
    otherwise.  Whatever the outcome, the thread has been started and has not
    ended when control is back. *)
Lemma start_unstarted (self : Worker) (fault : option Fault) :
  _started (thread self) = false ->
  _ready_future self = Future.__init__ ->
  exists self',
    Worker.start self fault =
    (match fault with
     | None => Ok tt
     | Some (Raises cls msg) => Raise (Exception cls msg)
     | Some _ => Blocked
     end, self') /\
    _started (thread self') = true /\
    Thread.is_alive (thread self') = true /\
    daemon (thread self') = daemon (thread self) /\
    name (thread self') = name (thread self) /\
    ident self' = ident self /\
    _run_once self' = _run_once self /\
    _submitted_count self' = _submitted_count self /\
    match fault with
    | None =>
        _shutdown_event self' = Some Event.__init__ /\
        _loop self' = Some Loop.new /\
        channel (_ready_future self') = Fulfilled (PyBool true)
    | Some (Raises cls msg) =>
        _shutdown_event self' = _shutdown_event self /\
        _loop self' = Some Loop.new /\
        channel (_ready_future self') = Failed (Exception cls msg)
    | Some (Escapes _ _) =>
        _shutdown_event self' = _shutdown_event self /\
        _loop self' = Some Loop.new /\
        channel (_ready_future self') = Pending
    | Some (RunFails _ _) =>
        _shutdown_event self' = _shutdown_event self /\
        _loop self' = _loop self /\
        channel (_ready_future self') = Pending
    end.
Proof.
  intros Hs Hd. unfold_worker. rewrite Hs.
  destruct fault as [[cls msg|cls msg|cls msg]|]; cbn; rewrite Hd; cbn;
    eexists; repeat split.
Qed.

Lemma start_started (self : Worker) (fault : option Fault) :
  _started (thread self) = true ->
  Worker.start self fault
  = (Raise (RuntimeError "threads can only be started once"), self).
Proof. intros Hs. unfold_worker. rewrite Hs. reflexivity. Qed.

Lemma consistent_start (self : Worker) (fault : option Fault) :
  consistent self -> consistent (Worker.start self fault).2.
Proof.
  intros Hc. destruct (_started (thread self)) eqn:Hs.
  - rewrite start_started by exact Hs. exact Hc.
  - unfold consistent in Hc.
    destruct (_shutdown_event self) as [ev|] eqn:He.
    + destruct Hc as [Hc _]. congruence.
    + destruct (Hc Hs) as [Hd _].
      destruct (start_unstarted self fault Hs Hd)
        as (self' & -> & Hs' & _ & _ & _ & _ & _ & _ & H).
      cbn. unfold consistent.
      destruct fault as [[cls msg|cls msg|cls msg]|].
      1-3: destruct H as (-> & _); rewrite He; intros Hf; congruence.
      destruct H as (-> & Hl' & _). split; [exact Hs'|].
      exists Loop.new. exact Hl'.
Qed.

Lemma consistent_shutdown (self : Worker) :
  consistent self -> consistent (Worker.shutdown self).
Proof.
  unfold consistent, Worker.shutdown.
  destruct (_shutdown_event self) as [ev|] eqn:He; cbn; rewrite ?He; auto.
Qed.

Lemma consistent_exit (self : Worker) :
  consistent self -> consistent (Worker._exit self).
Proof.
  unfold consistent, Worker._exit. unfold_worker. cbn.
  destruct (_shutdown_event self) as [ev|] eqn:He.
  - intros [Hs (loop & ->)]. cbn. eauto.
  - intros Hc Hs. destruct (Hc Hs) as [-> ->]. auto.
Qed.

Lemma consistent_wake (self : Worker) :
  consistent self -> consistent (Worker._wake self).
Proof.
  intros Hc. unfold Worker._wake.
  destruct (_shutdown_event self) as [ev|] eqn:He; [|exact Hc].
  destruct (Event.is_set ev && Thread.is_alive (thread self)); [|exact Hc].
  apply consistent_exit, Hc.
Qed.

Lemma consistent_entrypoint_over (self : Worker) :
  consistent self -> consistent (Worker._entrypoint_over self).
Proof.
  intros Hc. unfold Worker._entrypoint_over.
  destruct (Thread.is_alive (thread self)); [|exact Hc].
  apply consistent_exit, Hc.
Qed.

Lemma exhausted_iff (self : Worker) :
  (0 <? _submitted_count self) && _run_once self = true <-> exhausted self.
Proof.
  unfold exhausted. rewrite andb_true_iff, Z.ltb_lt. tauto.
Qed.

(** C6, amended: on a consistent worker [submit] raises
    [RunOnceExhausted] on a run-once worker that has accepted a call;
    otherwise, on a worker without a shutdown event, it calls [start()] and
    raises what that raises -- the exception of the set-up that the
    coroutine caught and put on the ready future, or the [RuntimeError] of a
    thread started before -- or waits for ever where [start()] does, the
    set-up having failed without resolving the ready future; otherwise it
    raises [WorkerShutdown] when the shutdown signal is set; otherwise it
    raises the [RuntimeError] of the closed loop when the thread has ended
    without a shutdown; and in every other case it schedules the call on the
    loop and increments the submitted count by one. *)
Theorem submit_outcome_by_cases (self : Worker) (call : Call)
    (fault : option Fault) :
  consistent self ->
  match Worker.submit self call fault with
  | (Raise e, _, _) =>
      (e = Worker.RunOnceExhausted /\ exhausted self) \/
      (~ exhausted self /\ _shutdown_event self = None /\
       (Worker.start self fault).1 = Raise e /\
       ((e = RuntimeError "threads can only be started once" /\
         _started (thread self) = true) \/
        (exists cls msg, e = Exception cls msg /\
           fault = Some (Raises cls msg) /\
           _started (thread self) = false))) \/
      (e = Worker.WorkerShutdown /\ ~ exhausted self /\ shut_down self) \/
      (e = RuntimeError "Event loop is closed" /\
       ~ exhausted self /\ is_Some (_shutdown_event self) /\
       ~ shut_down self /\ loop_closed self)
  | (Ok _, self', _) =>
      ~ exhausted self /\ ~ shut_down self /\ ~ loop_closed self /\
      (_shutdown_event self = None ->
       (Worker.start self fault).1 = Ok tt /\ fault = None /\
       _started (thread self) = false) /\
      accepted self call self'
  | (Blocked, _, _) =>
      ~ exhausted self /\ _shutdown_event self = None /\
      (Worker.start self fault).1 = Blocked /\
      _started (thread self) = false /\
      exists cls msg,
        fault = Some (Escapes cls msg) \/ fault = Some (RunFails cls msg)
  end.
Proof.
  intros Hc. unfold Worker.submit.
  destruct ((0 <? _submitted_count self) && _run_once self) eqn:Hx.
  { left. split; [reflexivity|]. apply exhausted_iff, Hx. }
  assert (Hnx : ~ exhausted self).
  { rewrite <- exhausted_iff, Hx. discriminate. }
  unfold consistent in Hc.
  destruct (_shutdown_event self) as [ev|] eqn:He.
  - destruct Hc as [Hs (loop & Hl)]. rewrite He.
    destruct (Event.is_set ev) eqn:Hset.
    { right. right. left. repeat split; auto. exists ev. auto. }
    assert (Hns : ~ shut_down self).
    { intros (ev' & He' & Hset'). congruence. }
    rewrite Hl. unfold Loop.call_soon_threadsafe.
    destruct (_closed loop) eqn:Hclosed.
    { right. right. right. repeat split; auto. exists loop. auto. }
    assert (Hnc : ~ loop_closed self).
    { intros (loop' & Hl' & Hcl'). congruence. }
    cbn.
    destruct (_run_once self) eqn:Hro; cbn.
    + unfold Future.add_done_callback.
      destruct (Future.done (future call)); cbn.
      all: repeat split; auto. all: try congruence.
      all: unfold queue, Worker.shutdown; cbn; rewrite ?He, ?Hl; cbn.
      all: try reflexivity.
    + repeat split; auto. all: try congruence.
      unfold queue; cbn; rewrite Hl; reflexivity.
  - assert (Hns : ~ shut_down self).
    { intros (ev' & He' & _). congruence. }
    destruct (_started (thread self)) eqn:Hs.
    { rewrite start_started by exact Hs. right. left.
      repeat split; auto. }
    destruct (Hc eq_refl) as [Hrf Hl].
    assert (Hnc : ~ loop_closed self).
    { intros (loop' & Hl' & _). congruence. }
    destruct (start_unstarted self fault Hs Hrf)
      as (self' & -> & _ & _ & _ & _ & _ & Hro' & Hn' & H).
    destruct fault as [[cls msg|cls msg|cls msg]|].
    { right. left. repeat split; auto. right. exists cls, msg. auto. }
    { repeat split; auto. exists cls, msg. auto. }
    { repeat split; auto. exists cls, msg. auto. }
    destruct H as (He' & Hl' & _).
    rewrite He'. cbn. rewrite Hl'. cbn.
    destruct (_run_once self') eqn:Hro; cbn.
    + unfold Future.add_done_callback.
      destruct (Future.done (future call)); cbn.
      all: repeat split; auto.
      all: unfold queue, Worker.shutdown; cbn; rewrite ?He', ?Hl', ?Hl; cbn.
      all: try reflexivity. all: try (rewrite Hn'; reflexivity).
    + repeat split; auto.
      * unfold queue; cbn; rewrite Hl; reflexivity.
      * cbn. rewrite Hn'. reflexivity.
Qed.

Lemma consistent_new_worker (run_once : bool) : consistent (new_worker run_once).
Proof. unfold consistent. cbn. auto. Qed.

Lemma consistent_started_worker (run_once : bool) :
  consistent (started_worker run_once).
Proof. apply consistent_start, consistent_new_worker. Qed.

Lemma submit_outcome_by_cases_witness :
  let self := new_worker true in
  let call := Call.new one_plus_one [] ∅ fresh_state in
  let fault : option Fault := None in
  consistent self /\
  match Worker.submit self call fault with
  | (Raise e, _, _) =>
      (e = Worker.RunOnceExhausted /\ exhausted self) \/
      (~ exhausted self /\ _shutdown_event self = None /\
       (Worker.start self fault).1 = Raise e /\
       ((e = RuntimeError "threads can only be started once" /\
         _started (thread self) = true) \/
        (exists cls msg, e = Exception cls msg /\
           fault = Some (Raises cls msg) /\
           _started (thread self) = false))) \/
      (e = Worker.WorkerShutdown /\ ~ exhausted self /\ shut_down self) \/
      (e = RuntimeError "Event loop is closed" /\
       ~ exhausted self /\ is_Some (_shutdown_event self) /\
       ~ shut_down self /\ loop_closed self)
  | (Ok _, self', _) =>
      ~ exhausted self /\ ~ shut_down self /\ ~ loop_closed self /\
      (_shutdown_event self = None ->
       (Worker.start self fault).1 = Ok tt /\ fault = None /\
       _started (thread self) = false) /\
      accepted self call self'
  | (Blocked, _, _) =>
      ~ exhausted self /\ _shutdown_event self = None /\
      (Worker.start self fault).1 = Blocked /\
      _started (thread self) = false /\
      exists cls msg,
        fault = Some (Escapes cls msg) \/ fault = Some (RunFails cls msg)
  end.
Proof.
  split; [apply consistent_new_worker|].
  apply (submit_outcome_by_cases (new_worker true)
           (Call.new one_plus_one [] ∅ fresh_state) None).
  unfold consistent. cbn. auto.
Defined.

(** C6 as stated fails: when the set-up of the worker thread raises, the
    lazy [start()] inside [submit] re-raises that exception, on a worker
    that is neither exhausted nor shut down. *)
Lemma submit_raises_when_start_fails :
  let self := new_worker false in
  let call := Call.new one_plus_one [] ∅ fresh_state in
  let fault := Some (Raises "MemoryError" "") in
  consistent self /\
  (Worker.submit self call fault).1.1 = Raise (Exception "MemoryError" "") /\
  ~ submit_raises_in_two_cases self call fault.
Proof.
  split; [apply consistent_new_worker|]. split; [reflexivity|].
  unfold submit_raises_in_two_cases. cbn.
  intros [[H _]|[H _]]; discriminate H.
Qed.

(** C10: when [submit] raises [RunOnceExhausted] or [WorkerShutdown] on a
    consistent worker, it hands back the worker and the call exactly as they
    were: the submitted count, the handles on the loop and the done-callbacks
    of the call's future are untouched. *)
Theorem rejected_submit_changes_nothing (self : Worker) (call : Call)
    (fault : option Fault) (e : Exc) :
  consistent self ->
  e = Worker.RunOnceExhausted \/ e = Worker.WorkerShutdown ->
  (Worker.submit self call fault).1.1 = Raise e ->
  Worker.submit self call fault = (Raise e, self, call).
Proof.
  intros Hc He Hr. revert Hr. unfold Worker.submit.
  destruct ((0 <? _submitted_count self) && _run_once self).
  { cbn. intros [= <-]. reflexivity. }
  unfold consistent in Hc.
  destruct (_shutdown_event self) as [ev|] eqn:Hev.
  - destruct Hc as [Hs (loop & Hl)]. rewrite Hev.
    destruct (Event.is_set ev) eqn:Hset.
    { cbn. intros [= <-]. reflexivity. }
    rewrite Hl. unfold Loop.call_soon_threadsafe.
    destruct (_closed loop) eqn:Hclosed.
    { cbn. intros [= <-]. destruct He as [He|He]; discriminate He. }
    cbn. destruct (_run_once self); cbn; [|discriminate].
    destruct (Future.add_done_callback _ _). discriminate.
  - destruct (_started (thread self)) eqn:Hs.
    { rewrite start_started by exact Hs. cbn. intros [= <-].
      destruct He as [He|He]; discriminate He. }
    destruct (Hc eq_refl) as [Hrf Hl].
    destruct (start_unstarted self fault Hs Hrf) as (self' & -> & H).
    destruct fault as [[cls msg|cls msg|cls msg]|].
    1-3: cbn; try discriminate; intros [= <-];
      destruct He as [He|He]; discriminate He.
    destruct H as (_ & _ & _ & _ & _ & _ & _ & He' & Hl' & _).
    rewrite He'. cbn. rewrite Hl'. cbn.
    destruct (_run_once self'); cbn; [|discriminate].
    destruct (Future.add_done_callback _ _). discriminate.
Qed.

Lemma rejected_submit_changes_nothing_witness :
  let self := Worker.shutdown (started_worker false) in
  let call := Call.new one_plus_one [] ∅ fresh_state in
  consistent self /\
  (Worker.WorkerShutdown = Worker.RunOnceExhausted \/
   Worker.WorkerShutdown = Worker.WorkerShutdown) /\
  (Worker.submit self call None).1.1 = Raise Worker.WorkerShutdown /\
  Worker.submit self call None = (Raise Worker.WorkerShutdown, self, call).
Proof.
  assert (Hc : consistent (Worker.shutdown (started_worker false))).
  { unfold consistent. cbn. split; [reflexivity|]. eexists. reflexivity. }
  split; [exact Hc|]. split; [right; reflexivity|]. split; [reflexivity|].
  apply (rejected_submit_changes_nothing
           (Worker.shutdown (started_worker false))
           (Call.new one_plus_one [] ∅ fresh_state) None
           Worker.WorkerShutdown Hc); [right|]; reflexivity.
Defined.

(** C9: [shutdown] returns without raising (it has no raising outcome) and,
    on a consistent worker: it changes nothing when the thread was never
    started; a second [shutdown] changes nothing after the first; and on a
    started worker the shutdown signal is set afterwards. *)
Theorem shutdown_idempotent (self : Worker) :
  consistent self ->
  (_started (thread self) = false -> Worker.shutdown self = self) /\
  Worker.shutdown (Worker.shutdown self) = Worker.shutdown self /\
  (forall ev, _shutdown_event self = Some ev ->
     exists ev', _shutdown_event (Worker.shutdown self) = Some ev' /\
                 Event.is_set ev' = true).
Proof.
  intros Hc. unfold consistent in Hc. unfold Worker.shutdown.
  destruct (_shutdown_event self) as [ev|] eqn:He.
  - destruct Hc as [Hs _]. split; [congruence|]. cbn. split; [reflexivity|].
    intros ev' _. eexists. split; reflexivity.
  - rewrite He. split; [reflexivity|]. split; [reflexivity|]. discriminate.
Qed.

Lemma shutdown_idempotent_witness :
  let self := started_worker false in
  consistent self /\
  (_started (thread self) = false -> Worker.shutdown self = self) /\
  Worker.shutdown (Worker.shutdown self) = Worker.shutdown self /\
  (forall ev, _shutdown_event self = Some ev ->
     exists ev', _shutdown_event (Worker.shutdown self) = Some ev' /\
                 Event.is_set ev' = true).
Proof.
  assert (Hc : consistent (started_worker false)).
  { unfold consistent. cbn. split; [reflexivity|]. eexists. reflexivity. }
  split; [exact Hc|].
  exact (shutdown_idempotent (started_worker false) Hc).
Defined.

Lemma consistent_foldl_shutdown {A} (l : list A) (w : Worker) :
  consistent w -> consistent (foldl (fun w _ => Worker.shutdown w) w l).
Proof.
  revert w. induction l as [|a l IH]; intros w Hw; [exact Hw|].
  cbn. apply IH, consistent_shutdown, Hw.
Qed.

Lemma consistent_scheduled (self : Worker) (ev : Event) (loop : Loop)
    (n : Z) :
  _shutdown_event self = Some ev ->
  _started (thread self) = true ->
  consistent (set_submitted_count n (set_loop (Some loop) self)).
Proof.
  intros He Hs. unfold consistent. cbn. rewrite He.
  split; [exact Hs|]. exists loop. reflexivity.
Qed.

(** The part of [submit] after the lazy start keeps a worker consistent. *)
Lemma consistent_submit_tail (self : Worker) (call : Call) :
  consistent self ->
  consistent
    (match _shutdown_event self with
     | None =>
         (Raise (AttributeError
                   "'NoneType' object has no attribute 'is_set'"),
          self, call)
     | Some ev =>
         if Event.is_set ev
         then (Raise Worker.WorkerShutdown, self, call)
         else
           match _loop self with
           | None =>
               (Raise (AttributeError
                 "'NoneType' object has no attribute 'call_soon_threadsafe'"),
                self, call)
           | Some loop =>
               match Loop.call_soon_threadsafe call loop with
               | (Raise exc, _) => (Raise exc, self, call)
               | (Blocked, _) => (Blocked, self, call)
               | (Ok _, loop) =>
                   let self := set_loop (Some loop) self in
                   let self :=
                     set_submitted_count (_submitted_count self + 1) self in
                   if _run_once self then
                     let '(f, now) :=
                       Future.add_done_callback
                         (ShutdownWorker (ident self)) (future call) in
                     (Ok tt, foldl (fun w _ => Worker.shutdown w) self now,
                      set_future f call)
                   else (Ok tt, self, call)
               end
           end
     end).1.2.
Proof.
  intros Hc. assert (Hc2 := Hc). unfold consistent in Hc.
  destruct (_shutdown_event self) as [ev|] eqn:Hev; [|exact Hc2].
  destruct Hc as [Hs (loop & Hl)].
  destruct (Event.is_set ev); [exact Hc2|].
  rewrite Hl. unfold Loop.call_soon_threadsafe.
  destruct (_closed loop); [exact Hc2|].
  cbn. destruct (_run_once self); cbn.
  - destruct (Future.add_done_callback _ _). cbn.
    apply consistent_foldl_shutdown.
    eapply consistent_scheduled; eauto.
  - eapply consistent_scheduled; eauto.
Qed.

Lemma consistent_submit (self : Worker) (call : Call)
    (fault : option Fault) :
  consistent self -> consistent (Worker.submit self call fault).1.2.
Proof.
  intros Hc. unfold Worker.submit.
  destruct ((0 <? _submitted_count self) && _run_once self); [exact Hc|].
  pose proof (consistent_start self fault Hc) as Hc'.
  destruct (_shutdown_event self) as [ev0|] eqn:Hev0.
  - exact (consistent_submit_tail self call Hc).
  - destruct (Worker.start self fault) as [r self'] eqn:Hst. cbn in Hc'.
    destruct r; cbn; try exact Hc'.
    apply (consistent_submit_tail self' call Hc').
Qed.

(** ** The global worker *)

Lemma needs_worker_false (s : State) :
  _needs_worker s = false <->
  exists w obj,
    GLOBAL_WORKER s = Some w /\ workers s !! w = Some obj /\
    Thread.is_alive (thread obj) = true.
Proof.
  unfold _needs_worker. split.
  - destruct (GLOBAL_WORKER s) as [w|]; [|discriminate].
    destruct (workers s !! w) as [obj|] eqn:Hw; [|discriminate].
    intros H. exists w, obj. repeat split; auto.
    apply negb_false_iff, H.
  - intros (w & obj & -> & -> & ->). reflexivity.
Qed.

(** The cached worker is alive: it is returned and nothing changes. *)
Lemma get_global_worker_cached (s : State) (w : nat) (obj : Worker) :
  GLOBAL_WORKER s = Some w ->
  workers s !! w = Some obj ->
  Thread.is_alive (thread obj) = true ->
  get_global_worker s = (Ok (Some w), s).
Proof.
  intros Hg Hw Ha. unfold get_global_worker.
  replace (_needs_worker s) with false.
  - rewrite Hg. reflexivity.
  - symmetry. apply needs_worker_false. eauto.
Qed.

(** No live worker is cached: a daemon worker is constructed under a new
    identity, assigned to the global and started.  What the call gives is
    what [start()] gives: the new worker when the set-up of its thread
    succeeds; the exception of the set-up, or no return at all, when it
    fails -- and the worker that failed to start is then the cached one,
    with its thread not yet at its end. *)
Lemma get_global_worker_constructs (s : State) :
  _needs_worker s = true ->
  exists w obj s',
    get_global_worker s =
    (match bootstrap_fault s with
     | None => Ok (Some w)
     | Some (Raises cls msg) => Raise (Exception cls msg)
     | Some _ => Blocked
     end, s') /\
    workers s !! w = None /\
    workers s' = <[w := obj]> (workers s) /\
    GLOBAL_WORKER s' = Some w /\
    bootstrap_fault s' = bootstrap_fault s /\
    name (thread obj) = "GlobalWorkerThread" /\
    daemon (thread obj) = true /\
    _started (thread obj) = true /\
    Thread.is_alive (thread obj) = true /\
    _run_once obj = false /\
    atexit_registry s' = atexit_registry s /\
    ident obj = w /\
    _submitted_count obj = 0 /\
    (bootstrap_fault s = None <-> is_Some (_shutdown_event obj)).
Proof.
  intros Hn. unfold get_global_worker. rewrite Hn.
  unfold _assign_worker, _start_worker, Worker.__init__.
  cbn. rewrite lookup_insert_eq.
  set (w := fresh (dom (workers s))).
  match goal with
  | |- context [Worker.start ?o ?f] =>
      destruct (start_unstarted o f eq_refl eq_refl)
        as (obj & Hst & Hs & Ha & Hd & Hnm & Hid & Hro & Hcnt & H)
  end.
  rewrite Hst. exists w, obj.
  destruct (bootstrap_fault s) as [[cls msg|cls msg|cls msg]|] eqn:Hf; cbn.
  all: eexists; split; [reflexivity|]; cbn.
  all: split; [apply not_elem_of_dom, is_fresh|].
  all: split; [apply insert_insert_eq|].
  all: destruct H as (He & _); cbn in He; rewrite He.
  all: repeat split; auto.
  all: try discriminate; try (intros [? [=]]); eauto.
Qed.

Lemma get_global_worker_creates (s : State) :
  _needs_worker s = true ->
  bootstrap_fault s = None ->
  exists w obj s',
    get_global_worker s = (Ok (Some w), s') /\
    workers s !! w = None /\
    workers s' = <[w := obj]> (workers s) /\
    GLOBAL_WORKER s' = Some w /\
    bootstrap_fault s' = None /\
    name (thread obj) = "GlobalWorkerThread" /\
    daemon (thread obj) = true /\
    _started (thread obj) = true /\
    Thread.is_alive (thread obj) = true /\
    _run_once obj = false /\
    atexit_registry s' = atexit_registry s.
Proof.
  intros Hn Hf.
  destruct (get_global_worker_constructs s Hn)
    as (w & obj & s' & Hget & Hnew & Hws & Hg & Hbf & Hnm & Hd & Hs & Ha
        & Hro & Hat & _).
  rewrite Hf in Hget, Hbf. exists w, obj, s'. repeat split; auto.
Qed.

(** C7 as stated fails: with no worker created yet and the set-up of the
    new thread failing, [get_global_worker] returns no worker -- it raises
    the exception of the set-up -- and the worker that failed to start is
    the cached one. *)
Lemma global_worker_not_returned_when_start_fails :
  let s := set_bootstrap_fault (Some (Raises "OSError" "no loop"))
             fresh_state in
  GLOBAL_WORKER s = None /\
  (get_global_worker s).1 = Raise (Exception "OSError" "no loop") /\
  GLOBAL_WORKER (get_global_worker s).2 = Some 0%nat /\
  ~ creates_and_returns s.
Proof.
  cbn zeta. split; [reflexivity|]. split; [reflexivity|].
  split; [reflexivity|].
  intros (w & obj & s' & H & _).
  apply (f_equal (fun p => p.1)) in H. discriminate H.
Qed.

(** C7, amended: while the cached worker's thread is alive
    [get_global_worker] returns that very worker and changes nothing, so a
    second call right after a first returns the identical instance; when no
    worker was created yet, or the cached worker's thread is no longer
    alive, it constructs a daemon worker under a new identity, caches it and
    starts it, and returns it -- as the next call does -- when the set-up of
    its thread succeeds, its thread alive; when the set-up fails the call
    returns no worker: it raises the exception of the set-up, or never
    returns when the ready future is never resolved, and the new worker
    stays cached. *)
Theorem global_worker_cached_or_created (s : State) :
  (forall w obj,
     GLOBAL_WORKER s = Some w -> workers s !! w = Some obj ->
     Thread.is_alive (thread obj) = true ->
     get_global_worker s = (Ok (Some w), s) /\
     (get_global_worker (get_global_worker s).2).1 = Ok (Some w)) /\
  (GLOBAL_WORKER s = None \/
   (exists w obj,
      GLOBAL_WORKER s = Some w /\ workers s !! w = Some obj /\
      Thread.is_alive (thread obj) = false) ->
   exists w obj s',
     (get_global_worker s).2 = s' /\
     workers s !! w = None /\
     workers s' !! w = Some obj /\
     GLOBAL_WORKER s' = Some w /\
     daemon (thread obj) = true /\
     _started (thread obj) = true /\
     match bootstrap_fault s with
     | None =>
         (get_global_worker s).1 = Ok (Some w) /\
         Thread.is_alive (thread obj) = true /\
         get_global_worker s' = (Ok (Some w), s')
     | Some (Raises cls msg) =>
         (get_global_worker s).1 = Raise (Exception cls msg)
     | Some (Escapes _ _) | Some (RunFails _ _) =>
         (get_global_worker s).1 = Blocked
     end).
Proof.
  split.
  - intros w obj Hg Hw Ha.
    rewrite (get_global_worker_cached s w obj Hg Hw Ha). cbn.
    rewrite (get_global_worker_cached s w obj Hg Hw Ha). auto.
  - intros Hcase.
    assert (Hn : _needs_worker s = true).
    { unfold _needs_worker.
      destruct Hcase as [->|(w & obj & -> & -> & ->)]; reflexivity. }
    destruct (get_global_worker_constructs s Hn)
      as (w & obj & s' & Hget & Hnew & Hws & Hg & _ & _ & Hd & Hs & Ha & _).
    assert (Hw : workers s' !! w = Some obj).
    { rewrite Hws. apply lookup_insert_eq. }
    exists w, obj, s'. rewrite Hget. cbn. repeat split; auto.
    destruct (bootstrap_fault s) as [[cls msg|cls msg|cls msg]|];
      try reflexivity.
    split; [reflexivity|]. split; [exact Ha|].
    apply (get_global_worker_cached s' w obj Hg Hw Ha).
Qed.

Lemma global_worker_cached_or_created_witness :
  let s := set_bootstrap_fault (Some (Raises "OSError" "no loop"))
             fresh_state in
  (GLOBAL_WORKER s = None \/
   (exists w obj,
      GLOBAL_WORKER s = Some w /\
      workers s !! w = Some obj /\
      Thread.is_alive (thread obj) = false)) /\
  exists w obj s',
    (get_global_worker s).2 = s' /\
    workers s !! w = None /\
    workers s' !! w = Some obj /\
    GLOBAL_WORKER s' = Some w /\
    daemon (thread obj) = true /\
    _started (thread obj) = true /\
    (get_global_worker s).1 = Raise (Exception "OSError" "no loop").
Proof.
  cbn zeta. split; [left; reflexivity|].
  apply (proj2 (global_worker_cached_or_created
                  (set_bootstrap_fault (Some (Raises "OSError" "no loop"))
                     fresh_state))).
  left; reflexivity.
Defined.

(** A thread that is given four turns in a row from the entry of
    [get_global_worker] goes through the whole call. *)
Lemma four_turns_first (c : Threads) :
  first c = AtCondition ->
  schedule (replicate 4 T1) c
  = {| first := Exited (get_global_worker (shared c)).1;
       second := second c;
       shared := (get_global_worker (shared c)).2 |}.
Proof.
  destruct c as [p1 p2 s]. cbn. intros ->.
  unfold schedule, get_global_worker.
  cbn -[_start_worker _assign_worker _needs_worker].
  destruct (_needs_worker s);
    cbn -[_start_worker _assign_worker _needs_worker]; [|reflexivity].
  destruct (_start_worker (_assign_worker s)) as [r s']. destruct r; reflexivity.
Qed.

Lemma four_turns_second (c : Threads) :
  second c = AtCondition ->
  schedule (replicate 4 T2) c
  = {| first := first c;
       second := Exited (get_global_worker (shared c)).1;
       shared := (get_global_worker (shared c)).2 |}.
Proof.
  destruct c as [p1 p2 s]. cbn. intros ->.
  unfold schedule, get_global_worker.
  cbn -[_start_worker _assign_worker _needs_worker].
  destruct (_needs_worker s);
    cbn -[_start_worker _assign_worker _needs_worker]; [|reflexivity].
  destruct (_start_worker (_assign_worker s)) as [r s']. destruct r; reflexivity.
Qed.

(** Two calls one after the other, when the set-up of a new thread does not
    fail: both return the same worker, and at most one was constructed. *)
Lemma two_calls_in_a_row (s : State) :
  bootstrap_fault s = None ->
  exists w s',
    get_global_worker s = (Ok (Some w), s') /\
    get_global_worker s' = (Ok (Some w), s') /\
    (size (created s s') <= 1)%nat.
Proof.
  intros Hf. destruct (_needs_worker s) eqn:Hn.
  - destruct (get_global_worker_creates s Hn Hf)
      as (w & obj & s' & Hget & Hnew & Hws & Hg & _ & _ & _ & _ & Ha & _).
    exists w, s'. split; [exact Hget|]. split.
    + apply (get_global_worker_cached s' w obj Hg); [|exact Ha].
      rewrite Hws. apply lookup_insert_eq.
    + unfold created. rewrite Hws, dom_insert_L.
      rewrite difference_union_distr_l_L, difference_diag_L, union_empty_r_L.
      etransitivity; [apply subseteq_size|].
      * apply (subseteq_difference_l {[w]} {[w]}). reflexivity.
      * rewrite size_singleton. reflexivity.
  - apply needs_worker_false in Hn as (w & obj & Hg & Hw & Ha).
    exists w, s.
    rewrite (get_global_worker_cached s w obj Hg Hw Ha).
    repeat split. unfold created.
    rewrite difference_diag_L, size_empty. lia.
Qed.

(** C8, amended: [get_global_worker] takes no lock, and what holds is the
    sequential guarantee: when the two calls do not overlap -- one thread
    goes through its whole call before the other enters, and nothing else
    happens to the workers in between -- and the set-up of a new thread does
    not fail, both calls return one and the same worker and at most one
    worker is constructed. *)
Theorem serial_calls_share_one_worker (t : Turn) (s : State) :
  bootstrap_fault s = None ->
  one_shared_worker (serial t) s.
Proof.
  intros Hf.
  destruct (two_calls_in_a_row s Hf) as (w & s' & H1 & H2 & Hsz).
  unfold one_shared_worker, serial, schedule. rewrite foldl_app.
  fold (schedule (replicate 4 t) (enter s)).
  destruct t; cbn [other].
  - rewrite four_turns_first by reflexivity.
    match goal with
    | |- context [foldl ?f ?c (replicate 4 T2)] =>
        change (foldl f c (replicate 4 T2)) with (schedule (replicate 4 T2) c)
    end.
    rewrite four_turns_second by reflexivity.
    cbn [first second shared enter]. rewrite H1. cbn [fst snd].
    rewrite H2. cbn [fst snd]. split; [|exact Hsz]. exists w. auto.
  - rewrite four_turns_second by reflexivity.
    match goal with
    | |- context [foldl ?f ?c (replicate 4 T1)] =>
        change (foldl f c (replicate 4 T1)) with (schedule (replicate 4 T1) c)
    end.
    rewrite four_turns_first by reflexivity.
    cbn [first second shared enter]. rewrite H1. cbn [fst snd].
    rewrite H2. cbn [fst snd]. split; [|exact Hsz]. exists w. auto.
Qed.

Lemma serial_calls_share_one_worker_witness :
  bootstrap_fault fresh_state = None /\
  one_shared_worker (serial T1) fresh_state.
Proof.
  split; [reflexivity|].
  apply (serial_calls_share_one_worker T1 fresh_state). reflexivity.
Defined.

(** C8 as stated fails: when thread 1 is preempted between the liveness
    check and the assignment, thread 2 constructs, starts and returns a
    worker, and thread 1 then constructs, starts and returns another: the two
    calls return different workers, and both are alive. *)
Lemma overlapping_calls_create_two_workers :
  first (schedule overlapping (enter fresh_state)) = Exited (Ok (Some 1%nat)) /\
  second (schedule overlapping (enter fresh_state)) = Exited (Ok (Some 0%nat)) /\
  size (live_workers (shared (schedule overlapping (enter fresh_state))))
    = 2%nat /\
  ~ one_shared_worker overlapping fresh_state.
Proof.
  assert (H1 : first (schedule overlapping (enter fresh_state))
               = Exited (Ok (Some 1%nat))) by (vm_compute; reflexivity).
  assert (H2 : second (schedule overlapping (enter fresh_state))
               = Exited (Ok (Some 0%nat))) by (vm_compute; reflexivity).
  split; [exact H1|]. split; [exact H2|]. split; [vm_compute; reflexivity|].
  unfold one_shared_worker. intros [(w & Hw1 & Hw2) _].
  rewrite H1 in Hw1. rewrite H2 in Hw2. congruence.
Qed.

(** ** The scenarios of the specification, evaluated *)

Example scenario_one_plus_one :
  (invoke (Call.new one_plus_one [] ∅ fresh_state) fresh_state).1.1
  = Ok (PyInt 2).
Proof. reflexivity. Qed.

Example scenario_value_error :
  (invoke (Call.new raise_value_error [] ∅ fresh_state) fresh_state).1.1
  = Raise (Exception "ValueError" "x").
Proof. reflexivity. Qed.

Example scenario_cancelled_before_run :
  invocations
    (world (state (after [DoCancel; DoRun]
                     (born one_plus_one [] ∅ fresh_state)))) = 0 /\
  invocations
    (world (state (after [DoRun] (born one_plus_one [] ∅ fresh_state)))) = 1.
Proof. split; reflexivity. Qed.

Example scenario_submitter_context :
  channel (future (call (after [DoRun; DoResume]
                           (alone (Call.new read_request [] ∅ submitter_state)
                              loop_thread_state))))
  = Fulfilled (PyStr "from-submitter") /\
  channel (future (call (after [DoRun; DoResume]
                           (alone (Call.new read_request_async [] ∅
                                     submitter_state)
                              loop_thread_state))))
  = Fulfilled (PyStr "from-submitter").
Proof. split; reflexivity. Qed.

Example scenario_awaitable_in_loop :
  match Call.__call__ (Call.new read_request_async [] ∅ submitter_state)
          loop_thread_state with
  | (Ok (AwaitableResult coro), self, s) =>
      channel (future self) = Pending /\
      (Call.run_and_return_result self coro s).1.1
      = Ok (PyStr "from-submitter")
  | _ => False
  end.
Proof. split; reflexivity. Qed.

Example scenario_run_once :
  let call := Call.new one_plus_one [] ∅ fresh_state in
  let '(r1, w1, call1) := Worker.submit (new_worker true) call None in
  r1 = Ok tt /\
  _done_callbacks (future call1) = [ShutdownWorker 0] /\
  (Worker.submit w1 call None).1.1 = Raise Worker.RunOnceExhausted.
Proof. repeat split. Qed.

Example scenario_shutdown_twice :
  let w := started_worker false in
  Worker.shutdown (Worker.shutdown w) = Worker.shutdown w /\
  _shutdown_event (Worker.shutdown w) = Some {| _is_set := true |} /\
  (Worker.submit (Worker.shutdown w)
     (Call.new one_plus_one [] ∅ fresh_state) None).1.1
  = Raise Worker.WorkerShutdown.
Proof. repeat split. Qed.

Example scenario_crashed_thread :
  let w := Worker._entrypoint_over (started_worker false) in
  Thread.is_alive (thread w) = false /\
  ~ shut_down w /\
  (Worker.submit w (Call.new one_plus_one [] ∅ fresh_state) None).1.1
  = Raise (RuntimeError "Event loop is closed").
Proof.
  split; [reflexivity|]. split; [|reflexivity].
  intros (ev & [= <-] & Hset). discriminate Hset.
Qed.

Example scenario_dead_global_worker :
  let s1 := (get_global_worker fresh_state).2 in
  let s2 := set_workers
              (alter (fun w => Worker._wake (Worker.shutdown w)) 0%nat
                 (workers s1)) s1 in
  (get_global_worker fresh_state).1 = Ok (Some 0%nat) /\
  (get_global_worker s1).1 = Ok (Some 0%nat) /\
  (get_global_worker s2).1 = Ok (Some 1%nat).
Proof. repeat split; vm_compute; reflexivity. Qed.

(** ** More on the deferred call *)

(** X1: [run] executes its call at most once.  Whatever a first [run] did,
    a second [run] of the same call -- in any later state -- does not call
    the wrapped function: it leaves the interpreter state and the context of
    the call as they are and either raises [RuntimeError] (the future is
    running or finished, or the cancellation was already acknowledged) or
    returns [None] (the future was cancelled in between). *)
Theorem run_executes_at_most_once (self : Call) (s later : State) :
  let once := (Call.run self s).1.2 in
  (Call.run once later).2 = later /\
  context (Call.run once later).1.2 = context once /\
  channel (future (Call.run once later).1.2) = channel (future once) /\
  ((Call.run once later).1.1
   = Raise (RuntimeError "Future in unexpected state") \/
   (Call.run once later).1.1 = Ok None).
Proof.
  assert (Hnp : _state (future (Call.run self s).1.2) <> PENDING).
  { unfold_call. destruct (_state (future self)) eqn:Hs; cbn; rewrite ?Hs;
      try discriminate.
    destruct (fn self (args self) (kwargs self) (context self) (world s))
      as [[r ctx] w].
    destruct r as [[v|coro]|e|]; cbn; try discriminate.
    destruct (running_loop s); cbn; [discriminate|].
    destruct (coro ctx w) as [[r' ctx'] w']. destruct r'; cbn; discriminate. }
  cbn zeta. revert Hnp. generalize ((Call.run self s).1.2). intros once Hnp.
  unfold Call.run, Future.set_running_or_notify_cancel, channel.
  destruct (_state (future once)) eqn:Hs; cbn; rewrite ?Hs; auto.
  contradiction.
Qed.

(** X2: [run] raises only on a call that was run before.  On a call whose
    future is pending or cancelled it never raises, whatever the wrapped
    function does: all exceptions of the execution are captured. *)
Theorem run_captures_all_exceptions (self : Call) (s : State) (e : Exc) :
  (Call.run self s).1.1 = Raise e ->
  e = RuntimeError "Future in unexpected state" /\
  _state (future self) <> PENDING /\
  _state (future self) <> CANCELLED /\
  Call.run self s = (Raise e, self, s).
Proof.
  unfold_call. destruct self as [f g a k c]. cbn.
  destruct f as [st res ex cbs]. cbn.
  destruct st; cbn; try discriminate.
  - destruct (g a k c (world s)) as [[r ctx] w].
    destruct r as [[v|coro]|e'|]; cbn; try discriminate.
    destruct (running_loop s); cbn; [discriminate|].
    destruct (coro ctx w) as [[r' ctx'] w']. destruct r'; cbn; discriminate.
  - intros [= <-]. repeat split; discriminate.
  - intros [= <-]. repeat split; discriminate.
  - intros [= <-]. repeat split; discriminate.
Qed.

Lemma run_captures_all_exceptions_witness :
  let self := (Call.run (Call.new one_plus_one [] ∅ fresh_state)
                 fresh_state).1.2 in
  let e := RuntimeError "Future in unexpected state" in
  (Call.run self fresh_state).1.1 = Raise e /\
  e = RuntimeError "Future in unexpected state" /\
  _state (future self) <> PENDING /\
  _state (future self) <> CANCELLED /\
  Call.run self fresh_state = (Raise e, self, fresh_state).
Proof.
  split; [reflexivity|].
  apply (run_captures_all_exceptions
           (Call.run (Call.new one_plus_one [] ∅ fresh_state)
              fresh_state).1.2
           fresh_state (RuntimeError "Future in unexpected state")).
  reflexivity.
Defined.

(** X3: calling a pending call and reading what it returns gives what the
    wrapped function gives when executed inline in the context of the call
    -- the same value, the same exception, or no return at all, with or
    without a running loop around the caller -- except for an exception
    object that is false: [result()] tests the truth value of the stored
    exception, so such an exception is not re-raised and the stored result
    of the future ([None] on a new call) is returned in its place. *)
Theorem invoke_is_inline_execution (self : Call) (s : State) :
  _state (future self) = PENDING ->
  _exception (future self) = None ->
  (invoke self s).1.1
  = match evaluate (fn self) (args self) (kwargs self) (context self)
            (world s) with
    | Raise exc => if truthy exc then Raise exc else Ok (_result (future self))
    | r => r
    end.
Proof.
  intros Hp He. unfold evaluate. unfold_call. rewrite Hp. cbn.
  destruct (fn self (args self) (kwargs self) (context self) (world s))
    as [[r ctx] w].
  destruct r as [[v|coro]|e|]; cbn; rewrite ?He; try reflexivity.
  - destruct (running_loop s); cbn;
      destruct (coro ctx w) as [[r' ctx'] w']; destruct r' as [v|e|]; cbn;
      rewrite ?He; try reflexivity; destruct (truthy e); reflexivity.
  - destruct (truthy e); reflexivity.
Qed.

Lemma invoke_is_inline_execution_witness :
  let self := Call.new raise_falsy [] ∅ submitter_state in
  _state (future self) = PENDING /\
  _exception (future self) = None /\
  (invoke self loop_thread_state).1.1 = Ok PyNone.
Proof.
  split; [reflexivity|]. split; [reflexivity|].
  apply (invoke_is_inline_execution
           (Call.new raise_falsy [] ∅ submitter_state)
           loop_thread_state); reflexivity.
Defined.

(** X4: what [__call__] returns for an asynchronous function depends on the
    caller.  Inside a running loop it returns an awaitable at once: the
    coroutine has not run (the world is as the function call left it), the
    future is still running, and the task carries the context of the call.
    Without a running loop the coroutine is run to its end first: no
    awaitable is returned, and the channel is resolved when the coroutine
    is. *)
Theorem call_returns_awaitable_only_in_loop (self : Call) (s : State)
    (coro : Coro) (ctx : Context) (w : World) :
  _state (future self) = PENDING ->
  _exception (future self) = None ->
  fn self (args self) (kwargs self) (context self) (world s)
    = (Ok (Awaitable coro), ctx, w) ->
  if running_loop s then
    exists self' s',
      Call.__call__ self s
      = (Ok (AwaitableResult {| task_context := ctx; task_coro := coro |}),
         self', s') /\
      _state (future self') = RUNNING /\
      context self' = ctx /\
      world s' = w
  else
    (forall t, (Call.__call__ self s).1.1 <> Ok (AwaitableResult t)) /\
    channel (future (Call.__call__ self s).1.2) = resolved (coro ctx w).1.1.
Proof.
  intros Hp He Hfn. unfold_call. rewrite Hp. cbn. rewrite Hfn. cbn.
  destruct (running_loop s); cbn.
  - eexists _, _. repeat split.
  - destruct (coro ctx w) as [[r' ctx'] w']. destruct r' as [v|e|]; cbn;
      rewrite ?He, ?Hp; cbn; rewrite ?He; try destruct (truthy e);
      (split; [discriminate|reflexivity]).
Qed.

Lemma call_returns_awaitable_only_in_loop_witness :
  let self := Call.new read_request_async [] ∅ submitter_state in
  let coro : Coro :=
    fun ctx w => (Ok (default PyNone (ctx !! "request")), ctx, w) in
  _state (future self) = PENDING /\
  _exception (future self) = None /\
  fn self (args self) (kwargs self) (context self) (world loop_thread_state)
    = (Ok (Awaitable coro), context self, world loop_thread_state) /\
  exists self' s',
    Call.__call__ self loop_thread_state
    = (Ok (AwaitableResult
             {| task_context := context self; task_coro := coro |}),
       self', s') /\
    _state (future self') = RUNNING /\
    context self' = context self /\
    world s' = world loop_thread_state.
Proof.
  split; [reflexivity|]. split; [reflexivity|]. split; [reflexivity|].
  apply (call_returns_awaitable_only_in_loop
           (Call.new read_request_async [] ∅ submitter_state)
           loop_thread_state
           (fun ctx w => (Ok (default PyNone (ctx !! "request")), ctx, w))
           (context (Call.new read_request_async [] ∅ submitter_state))
           (world loop_thread_state)); reflexivity.
Defined.

(** X5: calling a call whose future was cancelled raises [CancelledError]
    to the caller -- [run] skips silently, but the read of the result does
    not -- and the wrapped function is not called. *)
Theorem call_of_cancelled_raises (self : Call) (s : State) :
  _state (future self) = CANCELLED ->
  (Call.__call__ self s).1.1 = Raise CancelledError /\
  (Call.__call__ self s).2 = s /\
  (invoke self s).1.1 = Raise CancelledError.
Proof.
  intros Hc. unfold_call. rewrite Hc. cbn. auto.
Qed.

Lemma call_of_cancelled_raises_witness :
  let self := (Call.future_cancel
                 (Call.new one_plus_one [] ∅ fresh_state) fresh_state).1.2 in
  _state (future self) = CANCELLED /\
  (Call.__call__ self fresh_state).1.1 = Raise CancelledError /\
  (Call.__call__ self fresh_state).2 = fresh_state /\
  (invoke self fresh_state).1.1 = Raise CancelledError.
Proof.
  split; [reflexivity|].
  apply (call_of_cancelled_raises
           (Call.future_cancel
              (Call.new one_plus_one [] ∅ fresh_state) fresh_state).1.2
           fresh_state).
  reflexivity.
Defined.

(** ** More on the worker *)

(** [start] touches neither the configuration nor the submitted count. *)
Lemma start_frame (self : Worker) (fault : option Fault) :
  _run_once (Worker.start self fault).2 = _run_once self /\
  ident (Worker.start self fault).2 = ident self /\
  _submitted_count (Worker.start self fault).2 = _submitted_count self /\
  _started (thread (Worker.start self fault).2) = true.
Proof.
  unfold_worker.
  destruct self as [i [nm dm st al] [fs res ex cbs] lp ev ro n]. cbn.
  destruct st; cbn; [auto|].
  destruct fault as [[cls msg|cls msg|cls msg]|]; destruct fs;
    destruct ex as [ex|]; cbn; auto; destruct (truthy ex); cbn; auto.
Qed.

Lemma start_keeps_queue (self : Worker) (fault : option Fault) :
  consistent self ->
  queue (Worker.start self fault).2 = queue self.
Proof.
  intros Hc. destruct (_started (thread self)) eqn:Hs.
  - rewrite start_started by exact Hs. reflexivity.
  - unfold consistent in Hc.
    destruct (_shutdown_event self) as [ev|] eqn:He.
    + destruct Hc as [Hc _]. congruence.
    + destruct (Hc Hs) as [Hrf Hl].
      unfold_worker. rewrite Hs, Hrf. unfold queue.
      destruct fault as [[cls msg|cls msg|cls msg]|]; cbn; rewrite ?Hl;
        reflexivity.
Qed.

(** X6: a worker cannot be started twice.  After [start] was called once --
    whether it succeeded or raised -- every further [start] raises
    [RuntimeError] and leaves the worker as it is. *)
Theorem start_twice_raises (self : Worker)
    (fault fault' : option Fault) :
  Worker.start (Worker.start self fault).2 fault'
  = (Raise (RuntimeError "threads can only be started once"),
     (Worker.start self fault).2).
Proof.
  apply start_started. apply start_frame.
Qed.

(** X7: [start] on a worker as constructed reports how the set-up of the
    thread went.  When the set-up succeeds it returns normally, the ready
    future is fulfilled with [True], the thread is alive, the loop is open
    and empty and the shutdown signal exists and is not set.  When the
    set-up raises an exception of a class deriving from [Exception], [start]
    raises that very exception, the ready future has failed with it and
    there is no shutdown event.  When the set-up fails otherwise -- an
    exception outside [Exception] escapes from the coroutine, or
    [asyncio.run] fails before the coroutine runs -- nothing resolves the
    ready future and [start] does not return.  In every case the thread
    object has been started. *)
Theorem start_reports_readiness (self : Worker)
    (fault : option Fault) :
  _started (thread self) = false ->
  _ready_future self = Future.__init__ ->
  _shutdown_event self = None ->
  _started (thread (Worker.start self fault).2) = true /\
  match fault with
  | None =>
      (Worker.start self fault).1 = Ok tt /\
      channel (_ready_future (Worker.start self fault).2)
      = Fulfilled (PyBool true) /\
      Thread.is_alive (thread (Worker.start self fault).2) = true /\
      _loop (Worker.start self fault).2
      = Some {| _ready := []; _closed := false |} /\
      _shutdown_event (Worker.start self fault).2
      = Some {| _is_set := false |}
  | Some (Raises cls msg) =>
      (Worker.start self fault).1 = Raise (Exception cls msg) /\
      channel (_ready_future (Worker.start self fault).2)
      = Failed (Exception cls msg) /\
      _shutdown_event (Worker.start self fault).2 = None
  | Some (Escapes _ _) | Some (RunFails _ _) =>
      (Worker.start self fault).1 = Blocked /\
      channel (_ready_future (Worker.start self fault).2) = Pending /\
      _shutdown_event (Worker.start self fault).2 = None
  end.
Proof.
  intros Hs Hrf He. unfold_worker. rewrite Hs, Hrf.
  destruct fault as [[cls msg|cls msg|cls msg]|]; cbn; rewrite ?He;
    repeat split.
Qed.

Lemma start_reports_readiness_witness :
  let self := new_worker false in
  let fault := Some (Raises "OSError" "no loop") in
  _started (thread self) = false /\
  _ready_future self = Future.__init__ /\
  _shutdown_event self = None /\
  _started (thread (Worker.start self fault).2) = true /\
  (Worker.start self fault).1 = Raise (Exception "OSError" "no loop") /\
  channel (_ready_future (Worker.start self fault).2)
  = Failed (Exception "OSError" "no loop") /\
  _shutdown_event (Worker.start self fault).2 = None.
Proof.
  split; [reflexivity|]. split; [reflexivity|]. split; [reflexivity|].
  apply (start_reports_readiness (new_worker false)
           (Some (Raises "OSError" "no loop"))); reflexivity.
Defined.

Lemma shutdown_frame (self : Worker) :
  _run_once (Worker.shutdown self) = _run_once self /\
  ident (Worker.shutdown self) = ident self /\
  queue (Worker.shutdown self) = queue self /\
  _submitted_count (Worker.shutdown self) = _submitted_count self /\
  thread (Worker.shutdown self) = thread self.
Proof.
  unfold Worker.shutdown. destruct (_shutdown_event self); repeat split.
Qed.

Lemma wake_frame (self : Worker) :
  _run_once (Worker._wake self) = _run_once self /\
  ident (Worker._wake self) = ident self /\
  queue (Worker._wake self) = queue self /\
  _submitted_count (Worker._wake self) = _submitted_count self /\
  _shutdown_event (Worker._wake self) = _shutdown_event self.
Proof.
  unfold Worker._wake, Worker._exit, queue.
  destruct (_shutdown_event self) as [ev|] eqn:He; [|rewrite He; auto].
  destruct (Event.is_set ev && Thread.is_alive (thread self));
    [|rewrite He; auto].
  cbn. rewrite He. destruct (_loop self); repeat split.
Qed.

Lemma exit_frame (self : Worker) :
  _run_once (Worker._exit self) = _run_once self /\
  ident (Worker._exit self) = ident self /\
  queue (Worker._exit self) = queue self /\
  _submitted_count (Worker._exit self) = _submitted_count self /\
  _shutdown_event (Worker._exit self) = _shutdown_event self /\
  _started (thread (Worker._exit self)) = _started (thread self).
Proof.
  unfold Worker._exit, queue. cbn. destruct (_loop self); repeat split.
Qed.

Lemma entrypoint_over_frame (self : Worker) :
  _run_once (Worker._entrypoint_over self) = _run_once self /\
  ident (Worker._entrypoint_over self) = ident self /\
  queue (Worker._entrypoint_over self) = queue self /\
  _submitted_count (Worker._entrypoint_over self) = _submitted_count self /\
  _shutdown_event (Worker._entrypoint_over self) = _shutdown_event self /\
  _started (thread (Worker._entrypoint_over self)) = _started (thread self).
Proof.
  unfold Worker._entrypoint_over.
  destruct (Thread.is_alive (thread self)); [apply exit_frame|repeat split].
Qed.

(** What one [submit] does to a consistent worker: the configuration stays;
    the call is appended to the loop and counted when [submit] returns, and
    neither the loop nor the count change when it does not. *)
Lemma submit_effect (self : Worker) (call : Call)
    (fault : option Fault) :
  consistent self ->
  _run_once (Worker.submit self call fault).1.2 = _run_once self /\
  ident (Worker.submit self call fault).1.2 = ident self /\
  match (Worker.submit self call fault).1.1 with
  | Ok _ =>
      ~ exhausted self /\ ~ shut_down self /\
      accepted self call (Worker.submit self call fault).1.2
  | _ =>
      queue (Worker.submit self call fault).1.2 = queue self /\
      _submitted_count (Worker.submit self call fault).1.2
      = _submitted_count self
  end.
Proof.
  intros Hc. unfold Worker.submit.
  destruct ((0 <? _submitted_count self) && _run_once self) eqn:Hx.
  { cbn. auto. }
  assert (Hnx : ~ exhausted self).
  { rewrite <- exhausted_iff, Hx. discriminate. }
  pose proof (start_frame self fault) as (Hf1 & Hf2 & Hf3 & _).
  pose proof (start_keeps_queue self fault Hc) as Hf4.
  unfold consistent in Hc.
  destruct (_shutdown_event self) as [ev|] eqn:He.
  - destruct Hc as [Hs (loop & Hl)]. rewrite He.
    destruct (Event.is_set ev) eqn:Hset.
    { cbn. auto. }
    assert (Hns : ~ shut_down self).
    { intros (ev' & He' & Hset'). congruence. }
    rewrite Hl. unfold Loop.call_soon_threadsafe.
    destruct (_closed loop) eqn:Hclosed.
    { cbn. auto. }
    cbn. destruct (_run_once self) eqn:Hro; cbn.
    + unfold Future.add_done_callback.
      destruct (Future.done (future call)); cbn.
      all: unfold accepted, queue, Worker.shutdown; cbn; rewrite ?He, ?Hl; cbn.
      all: repeat split; auto.
    + unfold accepted, queue; cbn; rewrite Hl. repeat split; auto.
  - assert (Hns : ~ shut_down self).
    { intros (ev' & He' & _). congruence. }
    destruct (_started (thread self)) eqn:Hs.
    { rewrite start_started by exact Hs. cbn. auto. }
    destruct (Hc eq_refl) as [Hrf Hl].
    destruct (start_unstarted self fault Hs Hrf) as (self' & Heq & H).
    rewrite Heq in *. cbn in Hf1, Hf2, Hf3, Hf4.
    destruct fault as [[cls msg|cls msg|cls msg]|]; cbn; auto.
    destruct H as (_ & _ & _ & _ & _ & _ & _ & He' & Hl' & _).
    rewrite He'. cbn. rewrite Hl'. cbn.
    destruct (_run_once self') eqn:Hro; cbn.
    + unfold Future.add_done_callback.
      destruct (Future.done (future call)); cbn.
      all: unfold accepted, queue, Worker.shutdown; cbn; rewrite ?He'; cbn.
      all: rewrite ?Hl, ?Hf3; repeat split; auto; congruence.
    + unfold accepted, queue; cbn. rewrite Hl, Hf3.
      repeat split; auto; congruence.
Qed.

Lemma consistent_operate (op : WorkerOp) (w : Worker) :
  consistent w -> consistent (operate op w).2.
Proof.
  intros Hc. destruct op as [fault|call fault| | |]; cbn.
  - apply consistent_start, Hc.
  - apply consistent_submit, Hc.
  - apply consistent_shutdown, Hc.
  - apply consistent_wake, Hc.
  - apply consistent_entrypoint_over, Hc.
Qed.

(** One operation: the loop gains exactly the accepted call, and the count
    goes up by one exactly then. *)
Lemma operate_effect (op : WorkerOp) (w : Worker) :
  consistent w ->
  _run_once (operate op w).2 = _run_once w /\
  queue (operate op w).2 = queue w ++ accepted_call op w /\
  _submitted_count (operate op w).2
  = _submitted_count w + Z.of_nat (length (accepted_call op w)).
Proof.
  intros Hc. unfold accepted_call.
  destruct op as [fault|call fault| | |]; cbn [operate].
  - pose proof (start_frame w fault) as (H1 & _ & H3 & _).
    rewrite (start_keeps_queue w fault Hc), H1, H3.
    destruct (Worker.start w fault).1; cbn; rewrite app_nil_r, Z.add_0_r; auto.
  - pose proof (submit_effect w call fault Hc) as (H1 & _ & H3).
    destruct (Worker.submit w call fault) as [[r w'] c']. cbn in *.
    destruct r; cbn.
    + destruct H3 as (_ & _ & Hq & Hn). auto.
    + destruct H3 as [Hq Hn]. rewrite app_nil_r, Z.add_0_r. auto.
    + destruct H3 as [Hq Hn]. rewrite app_nil_r, Z.add_0_r. auto.
  - pose proof (shutdown_frame w) as (H1 & _ & H3 & H4 & _).
    cbn. rewrite app_nil_r, Z.add_0_r. auto.
  - pose proof (wake_frame w) as (H1 & _ & H3 & H4 & _).
    cbn. rewrite app_nil_r, Z.add_0_r. auto.
  - pose proof (entrypoint_over_frame w) as (H1 & _ & H3 & H4 & _).
    cbn. rewrite app_nil_r, Z.add_0_r. auto.
Qed.

(** X8: calls are scheduled in submission order and counted one by one.
    Along any sequence of [start], [submit], [shutdown] and thread exit on a
    consistent worker, the handles on the loop are those that were there
    followed by the accepted calls in the order of their [submit], and the
    submitted count has grown by the number of accepted calls -- so it never
    decreases. *)
Theorem calls_scheduled_in_submission_order (ops : list WorkerOp)
    (w : Worker) :
  consistent w ->
  queue (operated ops w) = queue w ++ accepted_calls ops w /\
  _submitted_count (operated ops w)
  = _submitted_count w + Z.of_nat (length (accepted_calls ops w)).
Proof.
  revert w. induction ops as [|op ops IH]; intros w Hc.
  - cbn. rewrite app_nil_r, Z.add_0_r. auto.
  - unfold operated in *. cbn [foldl accepted_calls].
    destruct (IH (operate op w).2 (consistent_operate op w Hc)) as [Hq Hn].
    destruct (operate_effect op w Hc) as (_ & Hq1 & Hn1).
    rewrite Hq, Hn, Hq1, Hn1. rewrite length_app, Nat2Z.inj_add.
    split; [apply (eq_sym (app_assoc _ _ _))|lia].
Qed.

Lemma calls_scheduled_in_submission_order_witness :
  let c1 := Call.new one_plus_one [] ∅ fresh_state in
  let c2 := Call.new raise_value_error [] ∅ fresh_state in
  let ops := [OpSubmit c1 None; OpSubmit c2 None; OpShutdown;
              OpSubmit c1 None] in
  consistent (new_worker false) /\
  queue (operated ops (new_worker false))
  = queue (new_worker false) ++ accepted_calls ops (new_worker false) /\
  _submitted_count (operated ops (new_worker false))
  = _submitted_count (new_worker false)
    + Z.of_nat (length (accepted_calls ops (new_worker false))).
Proof.
  split; [apply consistent_new_worker|].
  apply (calls_scheduled_in_submission_order
           [OpSubmit (Call.new one_plus_one [] ∅ fresh_state) None;
            OpSubmit (Call.new raise_value_error [] ∅ fresh_state) None;
            OpShutdown;
            OpSubmit (Call.new one_plus_one [] ∅ fresh_state) None]
           (new_worker false)).
  unfold consistent. cbn. auto.
Defined.

Lemma operate_shut_down (op : WorkerOp) (w : Worker) :
  consistent w -> shut_down w ->
  accepted_call op w = [] /\ shut_down (operate op w).2.
Proof.
  intros Hc Hsd. pose proof Hsd as (ev & He & Hset).
  unfold accepted_call.
  destruct op as [fault|call fault| | |]; cbn [operate].
  - split; [destruct (Worker.start w fault).1; reflexivity|].
    unfold consistent in Hc. rewrite He in Hc. destruct Hc as [Hs _].
    rewrite start_started by exact Hs. exact Hsd.
  - unfold Worker.submit.
    destruct ((0 <? _submitted_count w) && _run_once w); [cbn; auto|].
    rewrite He. cbn. rewrite He, Hset. cbn. auto.
  - split; [reflexivity|]. unfold shut_down, Worker.shutdown. rewrite He.
    cbn. eexists. split; reflexivity.
  - split; [reflexivity|]. unfold shut_down. cbn [snd].
    pose proof (wake_frame w) as (_ & _ & _ & _ & Hev). rewrite Hev. exact Hsd.
  - split; [reflexivity|]. unfold shut_down. cbn [snd].
    pose proof (entrypoint_over_frame w) as (_ & _ & _ & _ & Hev & _).
    rewrite Hev. exact Hsd.
Qed.

(** X9: shutdown is final.  Once the shutdown signal of a consistent worker
    is set, no sequence of [start], [submit], [shutdown] and thread exit gets
    a call accepted again, and the signal stays set. *)
Theorem shutdown_is_final (ops : list WorkerOp) (w : Worker) :
  consistent w -> shut_down w ->
  accepted_calls ops w = [] /\ shut_down (operated ops w).
Proof.
  revert w. induction ops as [|op ops IH]; intros w Hc Hsd.
  - cbn. auto.
  - unfold operated in *. cbn [foldl accepted_calls].
    destruct (operate_shut_down op w Hc Hsd) as [Ha Hsd'].
    destruct (IH (operate op w).2 (consistent_operate op w Hc) Hsd')
      as [Has Hfin].
    rewrite Ha, Has. auto.
Qed.

Lemma shutdown_is_final_witness :
  let w := Worker.shutdown (started_worker false) in
  let ops := [OpSubmit (Call.new one_plus_one [] ∅ fresh_state) None;
              OpStart None; OpThreadExit;
              OpSubmit (Call.new one_plus_one [] ∅ fresh_state) None] in
  consistent w /\ shut_down w /\
  accepted_calls ops w = [] /\ shut_down (operated ops w).
Proof.
  assert (Hc : consistent (Worker.shutdown (started_worker false))).
  { apply consistent_shutdown, consistent_started_worker. }
  assert (Hs : shut_down (Worker.shutdown (started_worker false))).
  { eexists. split; reflexivity. }
  split; [exact Hc|]. split; [exact Hs|].
  exact (shutdown_is_final
           [OpSubmit (Call.new one_plus_one [] ∅ fresh_state) None;
            OpStart None; OpThreadExit;
            OpSubmit (Call.new one_plus_one [] ∅ fresh_state) None]
           (Worker.shutdown (started_worker false)) Hc Hs).
Defined.

(** A worker whose thread was started and that has no shutdown event --
    the set-up of its thread failed -- stays so: [start] and [submit] raise,
    [shutdown] does nothing, and the end of the thread changes neither the
    event nor the count. *)
Lemma operate_dead (op : WorkerOp) (w : Worker) :
  _shutdown_event w = None -> _started (thread w) = true ->
  (operate op w).1
  = match op with
    | OpStart _ => Raise (RuntimeError "threads can only be started once")
    | OpSubmit _ _ =>
        if (0 <? _submitted_count w) && _run_once w
        then Raise Worker.RunOnceExhausted
        else Raise (RuntimeError "threads can only be started once")
    | _ => Ok tt
    end /\
  _shutdown_event (operate op w).2 = None /\
  _started (thread (operate op w).2) = true /\
  _submitted_count (operate op w).2 = _submitted_count w /\
  _run_once (operate op w).2 = _run_once w.
Proof.
  intros He Hs. destruct op as [fault|call fault| | |]; cbn [operate].
  - rewrite start_started by exact Hs. auto.
  - unfold Worker.submit.
    destruct ((0 <? _submitted_count w) && _run_once w); [cbn; auto|].
    rewrite He. rewrite start_started by exact Hs. cbn. auto.
  - unfold Worker.shutdown. rewrite He. cbn. auto.
  - unfold Worker._wake. rewrite He. cbn. auto.
  - pose proof (entrypoint_over_frame w) as (H1 & _ & _ & H4 & H5 & H6).
    cbn. rewrite H1, H4, H5, H6. auto.
Qed.

(** X10: a worker whose start-up failed is of no further use.  After
    [start] on a worker that was not started raised the failure of the
    thread set-up, or did not return, then along every later sequence of
    operations -- the end of its thread among them -- no call is accepted,
    the worker never has a shutdown event, its submitted count stays as it
    was, and every [submit] raises: [RunOnceExhausted] on a run-once worker
    that had accepted a call, the [RuntimeError] of a thread that cannot be
    started again otherwise. *)
Theorem failed_start_is_final (self : Worker) (fault : Fault)
    (ops : list WorkerOp) :
  consistent self ->
  _started (thread self) = false ->
  let failed := operated ops (Worker.start self (Some fault)).2 in
  (Worker.start self (Some fault)).1 <> Ok tt /\
  accepted_calls ops (Worker.start self (Some fault)).2 = [] /\
  _shutdown_event failed = None /\
  _submitted_count failed = _submitted_count self /\
  (forall call fault',
     (Worker.submit failed call fault').1.1
     = Raise (if (0 <? _submitted_count self) && _run_once self
              then Worker.RunOnceExhausted
              else RuntimeError "threads can only be started once")).
Proof.
  intros Hc Hs.
  assert (He : _shutdown_event self = None).
  { unfold consistent in Hc. destruct (_shutdown_event self); [|reflexivity].
    destruct Hc as [Hc _]. congruence. }
  unfold consistent in Hc. rewrite He in Hc. destruct (Hc Hs) as [Hrf _].
  destruct (start_unstarted self (Some fault) Hs Hrf)
    as (self' & Heq & Hs' & _ & _ & _ & _ & Hro' & Hn' & H).
  rewrite Heq. cbn [fst snd].
  assert (He' : _shutdown_event self' = None).
  { destruct fault; destruct H as (-> & _); exact He. }
  split; [destruct fault; discriminate|].
  rewrite <- Hro', <- Hn'. clear Heq H Hro' Hn'.
  revert self' Hs' He'.
  induction ops as [|op ops IH]; intros w Hs' He'.
  - cbn. repeat split; auto. intros call fault'.
    destruct (operate_dead (OpSubmit call fault') w He' Hs') as (H & _).
    cbn [operate] in H. rewrite H.
    destruct ((0 <? _submitted_count w) && _run_once w); reflexivity.
  - destruct (operate_dead op w He' Hs') as (Hr & He2 & Hs2 & Hn2 & Hro2).
    destruct (IH (operate op w).2 Hs2 He2) as (Ha & Hev & Hn & Hsub).
    unfold operated in *. cbn [foldl accepted_calls].
    rewrite Hn2, Hro2 in *.
    split; [|auto].
    rewrite Ha, app_nil_r. unfold accepted_call.
    destruct op; try reflexivity. rewrite Hr.
    destruct ((0 <? _submitted_count w) && _run_once w); reflexivity.
Qed.

Lemma failed_start_is_final_witness :
  let self := new_worker false in
  let fault := Escapes "KeyboardInterrupt" "" in
  let ops := [OpSubmit (Call.new one_plus_one [] ∅ fresh_state) None;
              OpThreadOver; OpShutdown; OpStart None] in
  let failed := operated ops (Worker.start self (Some fault)).2 in
  consistent self /\
  _started (thread self) = false /\
  (Worker.start self (Some fault)).1 <> Ok tt /\
  accepted_calls ops (Worker.start self (Some fault)).2 = [] /\
  _shutdown_event failed = None /\
  _submitted_count failed = _submitted_count self /\
  (forall call fault',
     (Worker.submit failed call fault').1.1
     = Raise (if (0 <? _submitted_count self) && _run_once self
              then Worker.RunOnceExhausted
              else RuntimeError "threads can only be started once")).
Proof.
  split; [apply consistent_new_worker|]. split; [reflexivity|].
  apply (failed_start_is_final (new_worker false)
           (Escapes "KeyboardInterrupt" "")
           [OpSubmit (Call.new one_plus_one [] ∅ fresh_state) None;
            OpThreadOver; OpShutdown; OpStart None]).
  - unfold consistent. cbn. auto.
  - reflexivity.
Defined.




(** ** Run-once workers and the done-callback *)

Lemma workers_invoke_callbacks (cbs : list Callback) (s : State) :
  workers (_invoke_callbacks cbs s) = shut_all cbs (workers s).
Proof.
  revert s. induction cbs as [|[i] cbs IH]; intros s; [reflexivity|].
  unfold _invoke_callbacks, shut_all in *. cbn [foldl]. rewrite IH.
  reflexivity.
Qed.

Lemma shut_all_at (cbs : list Callback) (ws : gmap nat Worker) (i : nat)
    (w : Worker) :
  ws !! i = Some w ->
  exists w',
    shut_all cbs ws !! i = Some w' /\
    (is_Some (_shutdown_event w) -> is_Some (_shutdown_event w')) /\
    (shut_down w -> shut_down w') /\
    (In (ShutdownWorker i) cbs -> is_Some (_shutdown_event w) ->
     shut_down w').
Proof.
  revert ws w. induction cbs as [|[j] cbs IH]; intros ws w Hw.
  - exists w. cbn. repeat split; auto. contradiction.
  - unfold shut_all in *. cbn [foldl].
    assert (Hsd : forall x, is_Some (_shutdown_event x) ->
                            shut_down (Worker.shutdown x)).
    { intros x [ev Hev]. unfold shut_down, Worker.shutdown. rewrite Hev.
      cbn. eexists. split; reflexivity. }
    assert (Hkeep : forall x, shut_down x -> shut_down (Worker.shutdown x)).
    { intros x (ev & Hev & _). apply Hsd. rewrite Hev. eauto. }
    assert (Hev : forall x, is_Some (_shutdown_event x) ->
                            is_Some (_shutdown_event (Worker.shutdown x))).
    { intros x Hx. destruct (Hsd x Hx) as (ev & -> & _). eauto. }
    destruct (decide (j = i)) as [->|Hne].
    + destruct (IH (alter Worker.shutdown i ws) (Worker.shutdown w))
        as (w' & Hw' & H1 & H2 & H3).
      { rewrite lookup_alter_eq, Hw. reflexivity. }
      exists w'. split; [exact Hw'|]. repeat split; auto.
    + destruct (IH (alter Worker.shutdown j ws) w) as (w' & Hw' & H1 & H2 & H3).
      { rewrite lookup_alter_ne by exact Hne. exact Hw. }
      exists w'. split; [exact Hw'|]. repeat split; auto.
      intros [Hin|Hin] Hs; [congruence|auto].
Qed.

Lemma will_shut_down_resolve (i : nat) (f f' : Future)
    (ws : gmap nat Worker) :
  will_shut_down i f ws ->
  _done_callbacks f' = _done_callbacks f ->
  will_shut_down i f' (shut_all (_done_callbacks f) ws).
Proof.
  intros (Hin & (w & Hw & Hev) & Hdone) Hcb.
  destruct (shut_all_at (_done_callbacks f) ws i w Hw)
    as (w' & Hw' & H1 & H2 & H3).
  split; [rewrite Hcb; exact Hin|]. split; [eauto|].
  intros _. exists w'. split; [exact Hw'|]. auto.
Qed.

Lemma will_shut_down_keep (i : nat) (f f' : Future) (ws : gmap nat Worker) :
  will_shut_down i f ws ->
  (forall cb, In cb (_done_callbacks f) -> In cb (_done_callbacks f')) ->
  (Future.done f' = true -> Future.done f = true) ->
  will_shut_down i f' ws.
Proof.
  intros (Hin & Hw & Hdone) Hcb Hd. split; [auto|]. split; auto.
Qed.

Lemma will_shut_down_shut_all (i : nat) (f : Future) (cbs : list Callback)
    (ws : gmap nat Worker) :
  will_shut_down i f ws -> will_shut_down i f (shut_all cbs ws).
Proof.
  intros (Hin & (w & Hw & Hev) & Hdone).
  destruct (shut_all_at cbs ws i w Hw) as (w' & Hw' & H1 & H2 & H3).
  split; [exact Hin|]. split; [eauto|].
  intros Hd. destruct (Hdone Hd) as (w0 & Hw0 & Hsd).
  exists w'. split; [exact Hw'|]. apply H2. congruence.
Qed.

#[local] Arguments _invoke_callbacks : simpl never.

Ltac shut_down_step H :=
  cbn; rewrite ?workers_invoke_callbacks; cbn;
  first
    [ exact H
    | refine (will_shut_down_resolve _ _ _ _ H _); reflexivity
    | refine (will_shut_down_shut_all _ _ _ _ H)
    | apply (will_shut_down_keep _ _ _ _ H);
      [ intros ? ?; assumption
      | unfold Future.done; cbn;
        repeat match goal with
               | Hs : _state _ = _ |- _ => rewrite Hs
               end;
        congruence ] ].

Lemma perform_will_shut_down (i : nat) (op : Op) (l : Life) :
  will_shut_down i (future (call l)) (workers (state l)) ->
  will_shut_down i (future (call (perform op l).2))
    (workers (state (perform op l).2)).
Proof.
  intros H. destruct l as [c ts s]. cbn [call tasks state] in *.
  destruct op as [|cb| |]; unfold perform; cbn [call tasks state].
  - unfold_call. destruct (_state (future c)) eqn:Hs; shut_down_step H.
    all: unfold Future.done; cbn; rewrite Hs; congruence.
  - unfold Future.add_done_callback.
    destruct (Future.done (future c)) eqn:Hd; cbn;
      rewrite ?workers_invoke_callbacks; cbn.
    + exact (will_shut_down_shut_all i _ [cb] _ H).
    + apply (will_shut_down_keep _ _ _ _ H).
      * intros x Hx. cbn. apply in_or_app. auto.
      * unfold Future.done in *. cbn. congruence.
  - unfold_call. destruct (_state (future c)) eqn:Hs; try shut_down_step H.
    all: try (unfold Future.done; cbn; rewrite Hs; congruence).
    cbn.
    destruct (fn c (args c) (kwargs c) (context c) (world s)) as [[r ctx] w].
    assert (Hrun : will_shut_down i
                     {| _state := RUNNING; _result := _result (future c);
                        _exception := _exception (future c);
                        _done_callbacks := _done_callbacks (future c) |}
                     (workers s)).
    { apply (will_shut_down_keep _ _ _ _ H); [auto|discriminate]. }
    destruct r as [[v|coro]|e|]; try shut_down_step Hrun.
    cbn. destruct (running_loop s); [shut_down_step Hrun|].
    cbn. destruct (coro ctx w) as [[r' ctx'] w']. destruct r';
      shut_down_step Hrun.
  - destruct ts as [|t ts]; [exact H|].
    unfold_call.
    destruct (task_coro t (current_context
                (set_current_context (task_context t) s))
                (world (set_current_context (task_context t) s)))
      as [[r ctx] w].
    destruct r as [v|e|]; destruct (_state (future c)) eqn:Hs;
      try shut_down_step H.
    all: try (unfold Future.done; cbn; rewrite Hs; congruence).
Qed.

Lemma after_will_shut_down (i : nat) (ops : list Op) (l : Life) :
  will_shut_down i (future (call l)) (workers (state l)) ->
  will_shut_down i (future (call (after ops l)))
    (workers (state (after ops l))).
Proof.
  revert l. induction ops as [|op ops IH]; intros l H; [exact H|].
  unfold after in *. cbn [foldl]. apply IH, perform_will_shut_down, H.
Qed.

(** What an accepted [submit] leaves behind on a run-once worker: the
    shutdown event exists; when the future of the call was already done the
    callback ran at once and the signal is set, otherwise the callback is
    the last of the done-callbacks of the future. *)
Lemma submit_run_once (self : Worker) (call : Call)
    (fault : option Fault) :
  consistent self -> _run_once self = true ->
  (Worker.submit self call fault).1.1 = Ok tt ->
  is_Some (_shutdown_event (Worker.submit self call fault).1.2) /\
  if Future.done (future call) then
    shut_down (Worker.submit self call fault).1.2 /\
    (Worker.submit self call fault).2 = call
  else
    ~ shut_down (Worker.submit self call fault).1.2 /\
    _state (future (Worker.submit self call fault).2) = _state (future call) /\
    _done_callbacks (future (Worker.submit self call fault).2)
    = _done_callbacks (future call) ++ [ShutdownWorker (ident self)].
Proof.
  intros Hc Hro. unfold Worker.submit.
  destruct ((0 <? _submitted_count self) && _run_once self); [discriminate|].
  pose proof (start_frame self fault) as (Hf1 & Hf2 & _).
  unfold consistent in Hc.
  destruct (_shutdown_event self) as [ev|] eqn:He.
  - destruct Hc as [Hs (loop & Hl)]. rewrite He.
    destruct (Event.is_set ev) eqn:Hset; [discriminate|].
    rewrite Hl. unfold Loop.call_soon_threadsafe.
    destruct (_closed loop) eqn:Hclosed; [discriminate|].
    cbn. rewrite Hro. cbn. unfold Future.add_done_callback.
    destruct (Future.done (future call)) eqn:Hd; cbn; intros _.
    + unfold Worker.shutdown. cbn. rewrite He. cbn.
      split; [eauto|]. split; [|destruct call; reflexivity].
      eexists. split; reflexivity.
    + rewrite He. split; [eauto|]. split; [|auto].
      intros (ev' & Hev' & Hset'). cbn in Hev'. congruence.
  - destruct (_started (thread self)) eqn:Hs.
    { rewrite start_started by exact Hs. discriminate. }
    destruct (Hc eq_refl) as [Hrf Hl].
    destruct (start_unstarted self fault Hs Hrf) as (self' & Heq & H).
    rewrite Heq in *. cbn in Hf1, Hf2.
    destruct fault as [[cls msg|cls msg|cls msg]|]; try discriminate.
    destruct H as (_ & _ & _ & _ & _ & _ & _ & He' & Hl' & _).
    rewrite He'. cbn. rewrite Hl'. cbn. rewrite Hf1, Hro. cbn.
    unfold Future.add_done_callback.
    destruct (Future.done (future call)) eqn:Hd; cbn; intros _.
    + unfold Worker.shutdown. cbn. rewrite He'. cbn.
      split; [eauto|]. split; [|destruct call; reflexivity].
      eexists. split; reflexivity.
    + rewrite He', Hf2. split; [eauto|]. split; [|auto].
      intros (ev' & Hev' & Hset'). cbn in Hev'. rewrite He' in Hev'.
      injection Hev' as <-. discriminate.
Qed.

(** X12: a run-once worker is shut down when its call is over.  After a
    consistent run-once worker has accepted a call whose future was not yet
    done, and with the worker stored in the heap under its identity:
    whatever sequence of cancellations, further callbacks, [run] and task
    resumptions follows, as soon as the channel of the call is in a terminal
    state -- fulfilled, failed or cancelled -- the shutdown signal of that
    worker is set. *)
Theorem run_once_worker_shut_down_with_call (self : Worker) (c : Call)
    (fault : option Fault) (s : State) (ts : list Task)
    (ops : list Op) :
  consistent self -> _run_once self = true ->
  Future.done (future c) = false ->
  (Worker.submit self c fault).1.1 = Ok tt ->
  workers s !! ident self = Some (Worker.submit self c fault).1.2 ->
  let l := {| call := (Worker.submit self c fault).2; tasks := ts;
              state := s |} in
  terminal (channel (future (call (after ops l)))) = true ->
  shut_down_at (ident self) (workers (state (after ops l))).
Proof.
  intros Hc Hro Hd Hok Hheap l Hterm.
  pose proof (submit_run_once self c fault Hc Hro Hok) as [Hev Hsub].
  rewrite Hd in Hsub. destruct Hsub as (Hnsd & Hst & Hcbs).
  assert (H0 : will_shut_down (ident self) (future (call l))
                 (workers (state l))).
  { unfold l. cbn [call state]. split; [|split].
    - rewrite Hcbs. apply in_or_app. right. left. reflexivity.
    - eauto.
    - unfold Future.done in *. rewrite Hst, Hd. discriminate. }
  destruct (after_will_shut_down (ident self) ops l H0) as (_ & _ & Hfin).
  apply Hfin. revert Hterm. unfold terminal, channel, Future.done.
  destruct (_state (future (call (after ops l)))); auto.
Qed.

Lemma run_once_worker_shut_down_with_call_witness :
  let self := new_worker true in
  let c := Call.new raise_value_error [] ∅ fresh_state in
  let s := set_workers
             (<[0%nat := (Worker.submit self c None).1.2]> ∅) fresh_state in
  let l := {| call := (Worker.submit self c None).2; tasks := [];
              state := s |} in
  consistent self /\ _run_once self = true /\
  Future.done (future c) = false /\
  (Worker.submit self c None).1.1 = Ok tt /\
  workers s !! ident self = Some (Worker.submit self c None).1.2 /\
  terminal (channel (future (call (after [DoRun] l)))) = true /\
  shut_down_at (ident self) (workers (state (after [DoRun] l))).
Proof.
  split; [apply consistent_new_worker|].
  split; [reflexivity|]. split; [reflexivity|]. split; [reflexivity|].
  split; [reflexivity|]. split; [reflexivity|].
  apply (run_once_worker_shut_down_with_call (new_worker true)
           (Call.new raise_value_error [] ∅ fresh_state) None
           (set_workers
              (<[0%nat := (Worker.submit (new_worker true)
                             (Call.new raise_value_error [] ∅ fresh_state)
                             None).1.2]> ∅) fresh_state)
           [] [DoRun]); try reflexivity.
  unfold consistent. cbn. auto.
Defined.

(** X13: submitting a call whose future is already done (cancelled or
    finished) to a run-once worker shuts the worker down on the spot: the
    call is still scheduled and counted -- [submit] returns normally -- but
    the done-callback runs at once, so the worker comes back with its
    shutdown signal set, and the call itself is unchanged. *)
Theorem run_once_submit_of_done_call (self : Worker) (c : Call)
    (fault : option Fault) :
  consistent self -> _run_once self = true ->
  Future.done (future c) = true ->
  (Worker.submit self c fault).1.1 = Ok tt ->
  shut_down (Worker.submit self c fault).1.2 /\
  (Worker.submit self c fault).2 = c /\
  accepted self c (Worker.submit self c fault).1.2.
Proof.
  intros Hc Hro Hd Hok.
  pose proof (submit_run_once self c fault Hc Hro Hok) as [_ Hsub].
  rewrite Hd in Hsub. destruct Hsub as [Hsd Hcall].
  pose proof (submit_effect self c fault Hc) as (_ & _ & Hacc).
  rewrite Hok in Hacc. destruct Hacc as (_ & _ & Hacc). auto.
Qed.

Lemma run_once_submit_of_done_call_witness :
  let self := new_worker true in
  let c := (Call.future_cancel
              (Call.new one_plus_one [] ∅ fresh_state) fresh_state).1.2 in
  consistent self /\ _run_once self = true /\
  Future.done (future c) = true /\
  (Worker.submit self c None).1.1 = Ok tt /\
  shut_down (Worker.submit self c None).1.2 /\
  (Worker.submit self c None).2 = c /\
  accepted self c (Worker.submit self c None).1.2.
Proof.
  split; [apply consistent_new_worker|].
  split; [reflexivity|]. split; [reflexivity|]. split; [reflexivity|].
  apply (run_once_submit_of_done_call (new_worker true)
           (Call.future_cancel
              (Call.new one_plus_one [] ∅ fresh_state) fresh_state).1.2
           None); try reflexivity.
  unfold consistent. cbn. auto.
Defined.

(** ** More on the global worker *)

Lemma needs_worker_frame (s : State) (fault : option Fault) :
  _needs_worker (set_bootstrap_fault fault s) = _needs_worker s.
Proof. reflexivity. Qed.

(** X14: when the set-up of the new thread raises, [get_global_worker]
    raises that failure and leaves the worker that failed to start in the
    global; that worker will never accept a call.  As long as its thread
    has not come to its end the liveness check passes, and the next call
    hands out that very worker; once its thread is over the next call, when
    threads can be set up again, constructs and returns another worker under
    a new identity. *)
Theorem global_worker_recovers_from_failed_start (s : State)
    (cls msg : string) :
  _needs_worker s = true ->
  bootstrap_fault s = Some (Raises cls msg) ->
  exists w obj s',
    get_global_worker s = (Raise (Exception cls msg), s') /\
    workers s !! w = None /\
    GLOBAL_WORKER s' = Some w /\
    workers s' !! w = Some obj /\
    (forall call fault,
       (Worker.submit obj call fault).1.1
       = Raise (RuntimeError "threads can only be started once")) /\
    (forall fault,
       get_global_worker (set_bootstrap_fault fault s')
       = (Ok (Some w), set_bootstrap_fault fault s')) /\
    exists w2 s2,
      get_global_worker (set_bootstrap_fault None (thread_over w s'))
      = (Ok (Some w2), s2) /\
      w2 <> w.
Proof.
  intros Hn Hf.
  destruct (get_global_worker_constructs s Hn)
    as (w & obj & s' & Hget & Hnew & Hws & Hg & _ & _ & _ & Hs & Ha & Hro & _
        & _ & Hcnt & Hev).
  rewrite Hf in Hget.
  assert (Hw : workers s' !! w = Some obj).
  { rewrite Hws. apply lookup_insert_eq. }
  assert (He : _shutdown_event obj = None).
  { destruct (_shutdown_event obj) eqn:He; [|reflexivity].
    assert (Hx : bootstrap_fault s = None) by (apply Hev; eauto).
    congruence. }
  exists w, obj, s'. split; [exact Hget|]. split; [exact Hnew|].
  split; [exact Hg|]. split; [exact Hw|]. split; [|split].
  - intros call fault.
    destruct (operate_dead (OpSubmit call fault) obj He Hs) as (H & _).
    cbn [operate] in H. rewrite H, Hcnt. reflexivity.
  - intros fault.
    apply (get_global_worker_cached (set_bootstrap_fault fault s') w obj);
      assumption.
  - destruct (get_global_worker_creates
                (set_bootstrap_fault None (thread_over w s')))
      as (w2 & obj2 & s2 & Hget2 & Hnew2 & _).
    + unfold _needs_worker. cbn. rewrite Hg, lookup_alter_eq, Hw. cbn.
      unfold Worker._entrypoint_over. rewrite Ha. reflexivity.
    + reflexivity.
    + exists w2, s2. split; [exact Hget2|].
      intros ->. cbn in Hnew2. rewrite lookup_alter_eq, Hw in Hnew2.
      discriminate.
Qed.

Lemma global_worker_recovers_from_failed_start_witness :
  let s := set_bootstrap_fault (Some (Raises "MemoryError" "")) fresh_state in
  _needs_worker s = true /\
  bootstrap_fault s = Some (Raises "MemoryError" "") /\
  exists w obj s',
    get_global_worker s = (Raise (Exception "MemoryError" ""), s') /\
    workers s !! w = None /\
    GLOBAL_WORKER s' = Some w /\
    workers s' !! w = Some obj /\
    (forall call fault,
       (Worker.submit obj call fault).1.1
       = Raise (RuntimeError "threads can only be started once")) /\
    (forall fault,
       get_global_worker (set_bootstrap_fault fault s')
       = (Ok (Some w), set_bootstrap_fault fault s')) /\
    exists w2 s2,
      get_global_worker (set_bootstrap_fault None (thread_over w s'))
      = (Ok (Some w2), s2) /\
      w2 <> w.
Proof.
  split; [reflexivity|]. split; [reflexivity|].
  apply (global_worker_recovers_from_failed_start
           (set_bootstrap_fault (Some (Raises "MemoryError" "")) fresh_state)
           "MemoryError" ""); reflexivity.
Defined.

Lemma retired_is_dead (obj : Worker) :
  is_Some (_shutdown_event obj) ->
  Thread.is_alive (thread (Worker._wake (Worker.shutdown obj))) = false.
Proof.
  intros [ev He]. unfold Worker._wake, Worker.shutdown. rewrite He. cbn.
  unfold Thread.is_alive.
  destruct (_alive (thread obj)) eqn:Ha; cbn; [reflexivity|exact Ha].
Qed.

(** X15: liveness re-checking replaces teardown.  Once the cached global
    worker has been shut down and its thread has come to its end, the next
    [get_global_worker] does not return it: it constructs a daemon worker
    under a new identity, makes it the cached one and starts it, and -- when
    the set-up of the new thread succeeds -- returns it, alive. *)
Theorem global_worker_replaced_after_shutdown (s : State) (w : nat)
    (obj : Worker) :
  GLOBAL_WORKER s = Some w ->
  workers s !! w = Some obj ->
  is_Some (_shutdown_event obj) ->
  exists w2 obj2 s2,
    (get_global_worker (retire w s)).2 = s2 /\
    (get_global_worker (retire w s)).1 <> Ok (Some w) /\
    w2 <> w /\
    workers s2 !! w2 = Some obj2 /\
    daemon (thread obj2) = true /\
    _started (thread obj2) = true /\
    GLOBAL_WORKER s2 = Some w2 /\
    (bootstrap_fault s = None ->
     (get_global_worker (retire w s)).1 = Ok (Some w2) /\
     Thread.is_alive (thread obj2) = true).
Proof.
  intros Hg Hw Hev.
  assert (Hw' : workers (retire w s) !! w
                = Some (Worker._wake (Worker.shutdown obj))).
  { unfold retire. cbn. rewrite lookup_alter_eq, Hw. reflexivity. }
  destruct (get_global_worker_constructs (retire w s))
    as (w2 & obj2 & s2 & Hget & Hnew & Hws & Hg2 & _ & _ & Hd & Hs & Ha & _).
  - unfold _needs_worker. cbn [retire GLOBAL_WORKER set_workers]. rewrite Hg.
    rewrite Hw'. rewrite (retired_is_dead obj Hev). reflexivity.
  - assert (Hne : w2 <> w) by (intros ->; congruence).
    exists w2, obj2, s2. rewrite Hget. cbn [fst snd].
    change (bootstrap_fault (retire w s)) with (bootstrap_fault s).
    split; [reflexivity|]. split.
    { destruct (bootstrap_fault s) as [[c m|c m|c m]|]; try discriminate.
      intros [= Heq]. congruence. }
    split; [exact Hne|].
    split; [rewrite Hws; apply lookup_insert_eq|].
    repeat split; auto. rewrite H. reflexivity.
Qed.

Lemma global_worker_replaced_after_shutdown_witness :
  let s := (get_global_worker fresh_state).2 in
  GLOBAL_WORKER s = Some 0%nat /\
  workers s !! 0%nat = Some (started_worker_named "GlobalWorkerThread") /\
  is_Some (_shutdown_event (started_worker_named "GlobalWorkerThread")) /\
  exists w2 obj2 s2,
    (get_global_worker (retire 0%nat s)).2 = s2 /\
    (get_global_worker (retire 0%nat s)).1 <> Ok (Some 0%nat) /\
    w2 <> 0%nat /\
    workers s2 !! w2 = Some obj2 /\
    daemon (thread obj2) = true /\
    _started (thread obj2) = true /\
    GLOBAL_WORKER s2 = Some w2 /\
    (bootstrap_fault s = None ->
     (get_global_worker (retire 0%nat s)).1 = Ok (Some w2) /\
     Thread.is_alive (thread obj2) = true).
Proof.
  split; [reflexivity|]. split; [reflexivity|].
  split; [eexists; reflexivity|].
  apply (global_worker_replaced_after_shutdown
           (get_global_worker fresh_state).2 0%nat
           (started_worker_named "GlobalWorkerThread"));
    try reflexivity.
  eexists; reflexivity.
Defined.

(** X16: the global worker is a daemon and [get_global_worker] keeps to
    itself.  Whatever its outcome, it registers no exit hook, leaves the
    world and the current context alone, and every worker that was in the
    heap is still there, unchanged. *)
Theorem global_worker_touches_nothing_else (s : State) (w : nat)
    (obj : Worker) :
  workers s !! w = Some obj ->
  workers (get_global_worker s).2 !! w = Some obj /\
  atexit_registry (get_global_worker s).2 = atexit_registry s /\
  world (get_global_worker s).2 = world s /\
  current_context (get_global_worker s).2 = current_context s.
Proof.
  intros Hw. unfold get_global_worker.
  destruct (_needs_worker s); [|cbn; auto].
  unfold _assign_worker, _start_worker, Worker.__init__.
  cbn. rewrite lookup_insert_eq.
  set (w0 := fresh (dom (workers s))).
  assert (Hne : w0 <> w).
  { intros Heq. pose proof (is_fresh (dom (workers s))) as Hfr.
    apply Hfr. apply elem_of_dom. exists obj.
    unfold w0 in Heq. rewrite Heq. exact Hw. }
  match goal with
  | |- context [Worker.start ?o ?f] => destruct (Worker.start o f) as [r o']
  end.
  destruct r; cbn; rewrite insert_insert_eq, lookup_insert_ne by exact Hne;
    auto.
Qed.

Lemma global_worker_touches_nothing_else_witness :
  let s := set_workers (<[7%nat := new_worker true]> ∅) fresh_state in
  workers s !! 7%nat = Some (new_worker true) /\
  workers (get_global_worker s).2 !! 7%nat = Some (new_worker true) /\
  atexit_registry (get_global_worker s).2 = atexit_registry s /\
  world (get_global_worker s).2 = world s /\
  current_context (get_global_worker s).2 = current_context s.
Proof.
  split; [reflexivity|].
  apply (global_worker_touches_nothing_else
           (set_workers (<[7%nat := new_worker true]> ∅) fresh_state)
           7%nat (new_worker true)).
  reflexivity.
Defined.

(** X17: without a lock an overlap can also make a caller fail.  From any
    state in which a worker is needed, when both threads pass the condition
    and both assign before either starts, the second assignment wins: one
    thread starts the worker the global now refers to -- and returns it when
    the set-up of its thread succeeds, raises or does not return as
    [start()] does when it fails -- the other finds that worker's thread
    already started and its [get_global_worker] raises [RuntimeError]; the
    worker of the first assignment is left in the heap, never started. *)
Theorem racing_calls_can_raise (s : State) :
  _needs_worker s = true ->
  exists w0 w1 obj0,
    first (schedule racing (enter s))
    = Exited (Raise (RuntimeError "threads can only be started once")) /\
    second (schedule racing (enter s))
    = Exited match bootstrap_fault s with
             | None => Ok (Some w1)
             | Some (Raises cls msg) => Raise (Exception cls msg)
             | Some _ => Blocked
             end /\
    w0 <> w1 /\
    workers s !! w0 = None /\ workers s !! w1 = None /\
    workers (shared (schedule racing (enter s))) !! w0 = Some obj0 /\
    _started (thread obj0) = false.
Proof.
  intros Hn. unfold schedule, racing, enter.
  cbn [foldl turn first second shared advance]. rewrite Hn.
  cbn [foldl turn first second shared advance].
  unfold _assign_worker, _start_worker, Worker.__init__.
  cbn [fst snd GLOBAL_WORKER workers set_GLOBAL_WORKER set_workers
       bootstrap_fault].
  set (w0 := fresh (dom (workers s))).
  set (obj0 :=
         {| ident := w0; thread := Thread.__init__ "GlobalWorkerThread" true;
            _ready_future := Future.__init__; _loop := None;
            _shutdown_event := None; _run_once := false;
            _submitted_count := 0 |}).
  set (w1 := fresh (dom (<[w0 := obj0]> (workers s)))).
  rewrite lookup_insert_eq.
  match goal with
  | |- context [Worker.start ?o ?f] =>
      destruct (start_unstarted o f eq_refl eq_refl)
        as (obj1 & Hst & Hs1 & _)
  end.
  rewrite Hst.
  assert (Hne : w0 <> w1).
  { intros Heq. pose proof (is_fresh (dom (<[w0 := obj0]> (workers s)))) as Hfr.
    apply Hfr. fold w1. rewrite <- Heq. rewrite dom_insert_L.
    apply elem_of_union_l, elem_of_singleton. reflexivity. }
  assert (Hn0 : workers s !! w0 = None).
  { apply not_elem_of_dom, is_fresh. }
  assert (Hn1 : workers s !! w1 = None).
  { pose proof (is_fresh (dom (<[w0 := obj0]> (workers s)))) as Hfr.
    fold w1 in Hfr. apply not_elem_of_dom. intros Hin. apply Hfr.
    rewrite dom_insert_L. apply elem_of_union_r, Hin. }
  exists w0, w1, obj0.
  destruct (bootstrap_fault s) as [[cls msg|cls msg|cls msg]|].
  all: cbn [foldl turn first second shared advance]; unfold _start_worker.
  all: cbn [fst snd GLOBAL_WORKER workers set_GLOBAL_WORKER set_workers
            bootstrap_fault first second shared].
  all: rewrite lookup_insert_eq; rewrite (start_started obj1 _ Hs1).
  all: cbn [foldl turn fst snd GLOBAL_WORKER workers set_GLOBAL_WORKER
            set_workers bootstrap_fault first second shared advance].
  all: split; [reflexivity|]; split; [reflexivity|].
  all: split; [exact Hne|]; split; [exact Hn0|]; split; [exact Hn1|].
  all: split; [|reflexivity].
  all: rewrite !lookup_insert_ne
         by (intros Heq; apply Hne; symmetry; exact Heq).
  all: apply lookup_insert_eq.
Qed.

Lemma racing_calls_can_raise_witness :
  let s := set_bootstrap_fault (Some (RunFails "OSError" "")) fresh_state in
  _needs_worker s = true /\
  exists w0 w1 obj0,
    first (schedule racing (enter s))
    = Exited (Raise (RuntimeError "threads can only be started once")) /\
    second (schedule racing (enter s)) = Exited Blocked /\
    w0 <> w1 /\
    workers s !! w0 = None /\ workers s !! w1 = None /\
    workers (shared (schedule racing (enter s))) !! w0
    = Some obj0 /\
    _started (thread obj0) = false.
Proof.
  split; [reflexivity|].
  apply (racing_calls_can_raise
           (set_bootstrap_fault (Some (RunFails "OSError" "")) fresh_state));
    reflexivity.
Defined.

(** ** The rendering of a call *)

Lemma string_length_append (a b : string) :
  String.length (String.append a b)
  = (String.length a + String.length b)%nat.
Proof.
  induction a as [|ch a IH]; [reflexivity|].
  change (S (String.length (String.append a b))
          = S (String.length a + String.length b)).
  f_equal. exact IH.
Qed.

Lemma string_length_prefix (n : nat) (s : string) :
  (n <= String.length s)%nat ->
  String.length (String.substring 0 n s) = n.
Proof.
  revert s. induction n as [|n IH]; intros s Hn.
  - destruct s; reflexivity.
  - destruct s as [|ch s]; [cbn in Hn; lia|].
    cbn. f_equal. apply IH. cbn in Hn. lia.
Qed.

Lemma string_prefix_substring (n : nat) (s : string) :
  String.prefix (String.substring 0 n s) s = true.
Proof.
  revert s. induction n as [|n IH]; intros s.
  - destruct s; reflexivity.
  - destruct s as [|ch s]; [reflexivity|].
    cbn. destruct (Ascii.ascii_dec ch ch); [apply IH|congruence].
Qed.

(** X18: [__repr__] enforces a maximum length on the argument text only,
    and the maximum is 103 characters, not 100.  Argument text of up to 100
    characters is rendered whole between the parentheses after the name;
    longer text is cut to its first 100 characters and followed by three
    dots.  So the rendering is never longer than the name plus 105
    characters. *)
Theorem repr_enforces_maximum_length (name : string)
    (repr : PyVal -> string) (items : list (string * PyVal)) (self : Call) :
  let text := joined_args repr items self in
  (if (100 <? String.length text)%nat
   then
     __repr__ name repr items self
     = String.append name
         (String.append "("
            (String.append
               (String.append (String.substring 0 100 text) "...") ")")) /\
     String.prefix (String.substring 0 100 text) text = true /\
     String.length (__repr__ name repr items self)
     = (String.length name + 105)%nat
   else
     __repr__ name repr items self
     = String.append name (String.append "(" (String.append text ")")) /\
     String.length (__repr__ name repr items self)
     = (String.length name + String.length text + 2)%nat) /\
  (String.length (__repr__ name repr items self)
   <= String.length name + 105)%nat.
Proof.
  cbn zeta. unfold __repr__. fold (joined_args repr items self).
  set (text := joined_args repr items self).
  destruct (100 <? String.length text)%nat eqn:Hlen.
  - apply Nat.ltb_lt in Hlen.
    assert (Hl : String.length
                   (String.append name
                      (String.append "("
                         (String.append
                            (String.append (String.substring 0 100 text)
                               "...") ")")))
                 = (String.length name + 105)%nat).
    { rewrite !string_length_append, string_length_prefix by lia.
      cbn. lia. }
    split; [|lia]. split; [reflexivity|].
    split; [apply string_prefix_substring|exact Hl].
  - apply Nat.ltb_ge in Hlen.
    assert (Hl : String.length
                   (String.append name
                      (String.append "(" (String.append text ")")))
                 = (String.length name + String.length text + 2)%nat).
    { rewrite !string_length_append. cbn. lia. }
    split; [|lia]. split; [reflexivity|exact Hl].
Qed.

Example scenario_repr :
  __repr__ "add" sample_repr [("x", PyNone)]
    (Call.new one_plus_one [PyStr "a"; PyBool true] ∅ fresh_state)
  = "add('a', True, x=None)".
Proof. reflexivity. Qed.
